(** * github-telegram: the webhook ingress pipeline

    A shallow embedding of the two webhook servers of the repository:

    - [Signed]  : the variant of the server with the ping branch and the
                  [x-hub-signature-256] validation (HMAC-SHA256 over the raw
                  request body);
    - [Plain]   : [src/main.ts], the server without them.

    Both read a project configuration by the [:projectName] path parameter,
    validate the parsed push event, format one text message and post it to
    the Telegram [sendMessage] endpoint.

    Run-time values are modelled as the JavaScript values they are: the parsed
    body and the loaded configuration are JSON documents, and the handler
    reads them through property access, truthiness, [?.], [||], [??] and
    template-literal string conversion.  The calls that leave the handler
    ([crypto.timingSafeEqual], [axios.post]) are recorded in a log. *)

From Stdlib Require Import String Ascii NArith ZArith Bool Lia List DecimalString.
From Stdlib Require Import Init.Byte.
Import ListNotations.

(* ------------------------------------------------------------------------ *)
(** ** Bytes and Buffers *)

(** A Node [Buffer] is a sequence of octets. *)
Definition Buffer := list byte.

(** The octet with the value [n mod 256]. *)
Definition byte_of_N (n : N) : byte := byte_of_ascii (ascii_of_N n).

Definition N_of_byte (b : byte) : N := Byte.to_N b.

(* ------------------------------------------------------------------------ *)
(** ** JavaScript strings *)

(** A JavaScript string is a sequence of UTF-16 code units.  [lit] embeds an
    ASCII literal of the source. *)
Definition jsstring := list N.

Definition lit (s : string) : jsstring := map N_of_ascii (list_ascii_of_string s).

Fixpoint jsstring_eqb (a b : jsstring) : bool :=
  match a, b with
  | [], [] => true
  | x :: a', y :: b' => (x =? y)%N && jsstring_eqb a' b'
  | _, _ => false
  end.

(** [Buffer.from(s, 'utf8')]: the UTF-8 encoding of a string; a surrogate pair
    is one code point, a lone surrogate is replaced by U+FFFD. *)
Definition utf8_1 (u : N) : Buffer := [byte_of_N u].
Definition utf8_2 (u : N) : Buffer :=
  [byte_of_N (N.lor 0xC0 (N.shiftr u 6)); byte_of_N (N.lor 0x80 (N.land u 0x3F))].
Definition utf8_3 (u : N) : Buffer :=
  [byte_of_N (N.lor 0xE0 (N.shiftr u 12));
   byte_of_N (N.lor 0x80 (N.land (N.shiftr u 6) 0x3F));
   byte_of_N (N.lor 0x80 (N.land u 0x3F))].
Definition utf8_4 (c : N) : Buffer :=
  [byte_of_N (N.lor 0xF0 (N.shiftr c 18));
   byte_of_N (N.lor 0x80 (N.land (N.shiftr c 12) 0x3F));
   byte_of_N (N.lor 0x80 (N.land (N.shiftr c 6) 0x3F));
   byte_of_N (N.lor 0x80 (N.land c 0x3F))].

Definition is_high_surrogate (u : N) : bool := (0xD800 <=? u)%N && (u <=? 0xDBFF)%N.
Definition is_low_surrogate (u : N) : bool := (0xDC00 <=? u)%N && (u <=? 0xDFFF)%N.

Fixpoint utf8_encode (s : jsstring) : Buffer :=
  match s with
  | [] => []
  | u :: rest =>
      if (u <? 0x80)%N then utf8_1 u ++ utf8_encode rest
      else if (u <? 0x800)%N then utf8_2 u ++ utf8_encode rest
      else if is_high_surrogate u then
        match rest with
        | v :: rest' =>
            if is_low_surrogate v
            then utf8_4 (0x10000 + (u - 0xD800) * 0x400 + (v - 0xDC00))%N
                   ++ utf8_encode rest'
            else utf8_3 0xFFFD ++ utf8_encode rest
        | [] => utf8_3 0xFFFD
        end
      else if is_low_surrogate u then utf8_3 0xFFFD ++ utf8_encode rest
      else utf8_3 u ++ utf8_encode rest
  end.

(* ------------------------------------------------------------------------ *)
(** ** Hexadecimal encoding of Buffers *)

Module Hex.

(** The value of a hexadecimal digit, upper or lower case. *)
Definition unhex (c : ascii) : option N :=
  let n := N_of_ascii c in
  if (48 <=? n)%N && (n <=? 57)%N then Some (n - 48)%N
  else if (97 <=? n)%N && (n <=? 102)%N then Some (n - 87)%N
  else if (65 <=? n)%N && (n <=? 70)%N then Some (n - 55)%N
  else None.

(** [Buffer.from(s, 'hex')]: two digits make one octet; decoding stops at
    the first pair that is not two hexadecimal digits, and a trailing single
    character is dropped. *)
Fixpoint decode (s : string) : Buffer :=
  match s with
  | String a (String b rest) =>
      match unhex a, unhex b with
      | Some hi, Some lo => byte_of_N (hi * 16 + lo) :: decode rest
      | _, _ => []
      end
  | _ => []
  end.

Definition digit (n : N) : ascii :=
  if (n <? 10)%N then ascii_of_N (48 + n) else ascii_of_N (87 + n).

(** [buf.toString('hex')] and [hmac.digest('hex')]: lower-case digits. *)
Fixpoint encode (b : Buffer) : string :=
  match b with
  | [] => EmptyString
  | x :: rest =>
      String (digit (N_of_byte x / 16)) (String (digit (N_of_byte x mod 16)) (encode rest))
  end.

End Hex.

(* ------------------------------------------------------------------------ *)
(** ** SHA-256 (FIPS 180-4) and HMAC (RFC 2104), as [crypto.createHmac] *)

Module Crypto.

Local Open Scope N_scope.

Definition two32 : N := 0x100000000.
Definition add32 (a b : N) : N := (a + b) mod two32.
Definition rotr (n x : N) : N :=
  N.lor (N.shiftr x n) ((N.shiftl x (32 - n)) mod two32).
Definition not32 (x : N) : N := N.lxor x 0xFFFFFFFF.

Definition Ch (x y z : N) := N.lxor (N.land x y) (N.land (not32 x) z).
Definition Maj (x y z : N) := N.lxor (N.lxor (N.land x y) (N.land x z)) (N.land y z).
Definition bsig0 x := N.lxor (N.lxor (rotr 2 x) (rotr 13 x)) (rotr 22 x).
Definition bsig1 x := N.lxor (N.lxor (rotr 6 x) (rotr 11 x)) (rotr 25 x).
Definition ssig0 x := N.lxor (N.lxor (rotr 7 x) (rotr 18 x)) (N.shiftr x 3).
Definition ssig1 x := N.lxor (N.lxor (rotr 17 x) (rotr 19 x)) (N.shiftr x 10).

(** The round constants are the first 32 bits of the fractional parts of
    the cube roots of the first 64 primes, the initial chaining words those
    of the square roots of the first 8. *)
Definition primes : list N :=
  [2; 3; 5; 7; 11; 13; 17; 19; 23; 29; 31; 37; 41; 43; 47; 53; 59; 61; 67; 71; 73; 79;
   83; 89; 97; 101; 103; 107; 109; 113; 127; 131; 137; 139; 149; 151; 157; 163; 167;
   173; 179; 181; 191; 193; 197; 199; 211; 223; 227; 229; 233; 239; 241; 251; 257; 263;
   269; 271; 277; 281; 283; 293; 307; 311].

(** The integer cube root, bit by bit from the top. *)
Fixpoint cube_root (bits : nat) (n acc : N) : N :=
  match bits with
  | O => acc
  | S bits' =>
      let next := acc + N.shiftl 1 (N.of_nat bits') in
      cube_root bits' n (if next * next * next <=? n then next else acc)
  end.

Definition K : list N :=
  Eval vm_compute in
    map (fun p => cube_root 36 (N.shiftl p 96) 0 mod two32) primes.

(** The eight chaining words, also used for the working variables a..h. *)
Record words8 : Type := W8 { wa : N; wb : N; wc : N; wd : N; we : N; wf : N; wg : N; wh : N }.

Definition root_word (p : N) : N := N.sqrt (N.shiftl p 64) mod two32.

Definition H_init : words8 :=
  Eval vm_compute in
    W8 (root_word 2) (root_word 3) (root_word 5) (root_word 7)
       (root_word 11) (root_word 13) (root_word 17) (root_word 19).

(** Padding: the bit 1, zeros up to 56 mod 64 octets, the bit length on 64 bits. *)
Definition be_bytes (count : nat) (n : N) : list N :=
  map (fun i => (N.shiftr n (8 * N.of_nat i)) mod 256) (rev (seq 0 count)).

Definition pad (msg : list N) : list N :=
  let len := length msg in
  let zeros := ((64 - (len + 9) mod 64) mod 64)%nat in
  msg ++ [0x80] ++ repeat 0 zeros ++ be_bytes 8 (8 * N.of_nat len).

Fixpoint be_words (fuel : nat) (bs : list N) : list N :=
  match fuel, bs with
  | S fuel', b3 :: b2 :: b1 :: b0 :: rest =>
      (b3 * 0x1000000 + b2 * 0x10000 + b1 * 0x100 + b0) :: be_words fuel' rest
  | _, _ => []
  end.

Fixpoint chunks (fuel : nat) (ws : list N) : list (list N) :=
  match fuel with
  | O => []
  | S fuel' => firstn 16 ws :: chunks fuel' (skipn 16 ws)
  end.

(** The message schedule, most recent word first: the head is W(t-1). *)
Fixpoint extend (count : nat) (recent : list N) : list N :=
  match count with
  | O => recent
  | S count' =>
      let w := add32 (add32 (ssig1 (nth 1 recent 0)) (nth 6 recent 0))
                     (add32 (ssig0 (nth 14 recent 0)) (nth 15 recent 0)) in
      extend count' (w :: recent)
  end.

Definition schedule (block : list N) : list N := rev (extend 48 (rev block)).

Definition round (v : words8) (kw : N * N) : words8 :=
  let (k, w) := kw in
  let t1 := add32 (add32 (add32 (wh v) (bsig1 (we v))) (Ch (we v) (wf v) (wg v)))
                  (add32 k w) in
  let t2 := add32 (bsig0 (wa v)) (Maj (wa v) (wb v) (wc v)) in
  W8 (add32 t1 t2) (wa v) (wb v) (wc v) (add32 (wd v) t1) (we v) (wf v) (wg v).

Definition compress (h : words8) (block : list N) : words8 :=
  let v := fold_left round (combine K (schedule block)) h in
  W8 (add32 (wa h) (wa v)) (add32 (wb h) (wb v)) (add32 (wc h) (wc v))
     (add32 (wd h) (wd v)) (add32 (we h) (we v)) (add32 (wf h) (wf v))
     (add32 (wg h) (wg v)) (add32 (wh h) (wh v)).

Definition word_bytes (w : N) : Buffer :=
  [byte_of_N (N.shiftr w 24); byte_of_N (N.shiftr w 16);
   byte_of_N (N.shiftr w 8); byte_of_N w].

Definition digest_bytes (h : words8) : Buffer :=
  word_bytes (wa h) ++ word_bytes (wb h) ++ word_bytes (wc h) ++ word_bytes (wd h)
  ++ word_bytes (we h) ++ word_bytes (wf h) ++ word_bytes (wg h) ++ word_bytes (wh h).

Definition sha256 (msg : Buffer) : Buffer :=
  let padded := pad (map N_of_byte msg) in
  let ws := be_words (length padded) padded in
  digest_bytes (fold_left compress (chunks (length ws / 16) ws) H_init).

(** HMAC with block size 64: a longer key is hashed first. *)
Definition xor_pad (c : N) (key : Buffer) : Buffer :=
  map (fun b => byte_of_N (N.lxor (N_of_byte b) c)) key.

Definition hmac_sha256 (key msg : Buffer) : Buffer :=
  let k0 := if (64 <? length key)%nat then sha256 key else key in
  let k := k0 ++ repeat x00 (64 - length k0) in
  sha256 (xor_pad 0x5c k ++ sha256 (xor_pad 0x36 k ++ msg)).

(** [crypto.timingSafeEqual(a, b)]: octet-wise equality of two Buffers of
    one length; a [RangeError] (here [None]) when the lengths differ. *)
Definition timingSafeEqual (a b : Buffer) : option bool :=
  if (length a =? length b)%nat
  then Some (forallb (fun p => Byte.eqb (fst p) (snd p)) (combine a b))
  else None.

End Crypto.

(** The octets of an ASCII text, for writing request bodies down. *)
Definition ascii_bytes (s : string) : Buffer := map byte_of_ascii (list_ascii_of_string s).

(* ------------------------------------------------------------------------ *)
(** ** JavaScript values *)

Set Warnings "-register-all".

(** What the handlers can hold in a variable: the values of a parsed JSON
    document, [undefined], and the members every object inherits from
    [Object.prototype] (reached by [projectConfigs[projectName]]).  Numbers are
    the integers (those JavaScript prints in plain decimal): the handlers only
    test a number for being zero and print array lengths. *)
Inductive value : Type :=
| VUndefined
| VNull
| VBool (b : bool)
| VNum (n : Z)
| VStr (s : jsstring)
| VArr (items : list value)
| VObj (props : list (jsstring * value))
| VBuiltin (name : jsstring).

(** Errors a handler can raise or catch. *)
Inductive exn : Type :=
| TypeError
| RangeError
| AxiosError (detail : string).

Inductive result (A : Type) : Type :=
| Ok (a : A)
| Throw (e : exn).
Arguments Ok {A} a.
Arguments Throw {A} e.

Definition rbind {A B} (r : result A) (k : A -> result B) : result B :=
  match r with
  | Ok a => k a
  | Throw e => Throw e
  end.

Declare Scope result_scope.
Delimit Scope result_scope with result.
Notation "x <- r ;; k" := (rbind r (fun x => k))
  (at level 100, r at next level, right associativity) : result_scope.

Module JS.

Local Open Scope result_scope.

(** ToBoolean. *)
Definition truthy (v : value) : bool :=
  match v with
  | VUndefined | VNull => false
  | VBool b => b
  | VNum n => negb (n =? 0)%Z
  | VStr s => match s with [] => false | _ => true end
  | VArr _ | VObj _ | VBuiltin _ => true
  end.

(** [v === undefined || v === null], the test of [?.] and [??]. *)
Definition nullish (v : value) : bool :=
  match v with
  | VUndefined | VNull => true
  | _ => false
  end.

(** The property names of [Object.prototype]. *)
Definition object_prototype_names : list jsstring :=
  map lit ["constructor"; "__defineGetter__"; "__defineSetter__"; "hasOwnProperty";
           "__lookupGetter__"; "__lookupSetter__"; "isPrototypeOf";
           "propertyIsEnumerable"; "toString"; "valueOf"; "__proto__";
           "toLocaleString"]%string.

Definition inherited (k : jsstring) : value :=
  if existsb (jsstring_eqb k) object_prototype_names then VBuiltin k else VUndefined.

(** The own property [k] of an object, a list of its properties. *)
Fixpoint own (k : jsstring) (props : list (jsstring * value)) : option value :=
  match props with
  | [] => None
  | (k', v) :: rest => if jsstring_eqb k k' then Some v else own k rest
  end.

(** Property read [v.k] / [v[k]].  On an object: the own property, else the
    one inherited from [Object.prototype], else [undefined].  On the other
    kinds of value the result is exact for the names the handlers read:
    [length] is the only one of them that a string or an array defines. *)
Definition get (v : value) (k : jsstring) : result value :=
  match v with
  | VUndefined | VNull => Throw TypeError
  | VObj props =>
      match own k props with
      | Some x => Ok x
      | None => Ok (inherited k)
      end
  | VArr items =>
      if jsstring_eqb k (lit "length") then Ok (VNum (Z.of_nat (length items)))
      else Ok (inherited k)
  | VStr s =>
      if jsstring_eqb k (lit "length") then Ok (VNum (Z.of_nat (length s)))
      else Ok (inherited k)
  | VBool _ | VNum _ | VBuiltin _ => Ok (inherited k)
  end.

(** [v?.k] *)
Definition get_opt (v : value) (k : jsstring) : result value :=
  if nullish v then Ok VUndefined else get v k.

(** [a || b] and [a ?? b] with a constant right operand. *)
Definition or_else (a b : value) : value := if truthy a then a else b.
Definition coalesce (a b : value) : value := if nullish a then b else a.

(** Number::toString of an integer. *)
Definition decimal (n : Z) : jsstring := lit (NilZero.string_of_int (Z.to_int n)).

(** [xs.join(sep)] on an array of strings. *)
Fixpoint join (sep : jsstring) (xs : list jsstring) : jsstring :=
  match xs with
  | [] => []
  | [x] => x
  | x :: rest => x ++ sep ++ join sep rest
  end.

(** ToString, as a template literal applies it.  An array prints its
    elements joined by commas, [null] and [undefined] elements as nothing;
    a plain object prints through [Object.prototype.toString] unless an own
    property hides that method, which no JSON value can replace by a
    function. *)
Fixpoint toString (v : value) : result jsstring :=
  match v with
  | VUndefined => Ok (lit "undefined")
  | VNull => Ok (lit "null")
  | VBool true => Ok (lit "true")
  | VBool false => Ok (lit "false")
  | VNum n => Ok (decimal n)
  | VStr s => Ok s
  | VArr items =>
      parts <- (fix each (l : list value) : result (list jsstring) :=
                  match l with
                  | [] => Ok []
                  | x :: rest =>
                      s <- (if nullish x then Ok [] else toString x) ;;
                      t <- each rest ;;
                      Ok (s :: t)
                  end) items ;;
      Ok (join (lit ",") parts)
  | VObj props =>
      match own (lit "toString") props with
      | Some _ => Throw TypeError
      | None => Ok (lit "[object Object]")
      end
  | VBuiltin name =>
      if jsstring_eqb name (lit "__proto__") then Ok (lit "[object Object]")
      else Ok (lit "function " ++ name ++ lit "() { [native code] }")
  end.

(** [v.slice(0, n)]: a prefix of a string or of an array; on anything else
    [slice] is not a function. *)
Definition slice0 (v : value) (n : nat) : result value :=
  match v with
  | VStr s => Ok (VStr (firstn n s))
  | VArr items => Ok (VArr (firstn n items))
  | _ => Throw TypeError
  end.

(** [v.map(f)] where [f] returns strings: only an array has [map]. *)
Fixpoint mapM (f : value -> result jsstring) (l : list value) : result (list jsstring) :=
  match l with
  | [] => Ok []
  | x :: rest => s <- f x ;; t <- mapM f rest ;; Ok (s :: t)
  end.

Definition array_map (v : value) (f : value -> result jsstring) : result (list jsstring) :=
  match v with
  | VArr items => mapM f items
  | _ => Throw TypeError
  end.

End JS.

(* ------------------------------------------------------------------------ *)
(** ** Requests, responses and the calls that leave the handler *)

(** The part of an Express request the handlers read.  Header values are
    Latin-1 strings; [rawBody] is the field [rawBodySaver] fills in. *)
Record Request : Type := {
  projectName : jsstring;            (* req.params.projectName *)
  x_github_event : option string;    (* req.headers['x-github-event'] *)
  x_hub_signature_256 : option string;
  rawBody : option Buffer;
  body : value                       (* req.body, as body-parser left it *)
}.

(** [rawBodySaver]: the verify hook of [bodyParser.json] keeps the octets
    it is given unless there are none. *)
Definition rawBodySaver (buf : Buffer) : option Buffer :=
  match buf with
  | [] => None
  | _ => Some buf
  end.

(** [header === s] for a header that may be absent. *)
Definition header_is (h : option string) (s : string) : bool :=
  match h with
  | Some v => String.eqb v s
  | None => false
  end.

Inductive ResBody : Type :=
| Send (text : string)                             (* res.send(text) *)
| Json (error : string) (details : option exn).    (* res.json({ error, details }) *)

Record Response : Type := { status : N; payload : ResBody }.

(** The call to the Telegram [sendMessage] endpoint. *)
Record AxiosRequest : Type := {
  url : jsstring;
  chat_id : value;
  message_thread_id : value;
  text : jsstring;
  parse_mode : string;
  disable_web_page_preview : bool
}.

Inductive event : Type :=
| TimingSafeEqual (a b : Buffer)
| AxiosPost (r : AxiosRequest).

(** What a process is started with and talks to: the object read from
    [config.json] (the file holds a JSON object, as the type [ProjectConfigs]
    says; the list of its properties, empty when the file is absent or
    unreadable), the environment variable, and the answer of the network to a
    post ([None]: the promise resolves; [Some d]: it rejects). *)
Record World : Type := {
  projectConfigs : list (jsstring * value);
  env_TELEGRAM_API_DOMAIN : option jsstring;
  telegram : AxiosRequest -> option string
}.

Definition TELEGRAM_API_DOMAIN (w : World) : jsstring :=
  match env_TELEGRAM_API_DOMAIN w with
  | Some (c :: s) => c :: s
  | _ => lit "https://api.telegram.org"
  end.

(** *** The handler monad: a log of events and exceptions *)

(** A computation of the handler extends the log and returns a value or
    throws.  The handler is an [async] function: when it throws, its promise
    rejects and the handler itself writes no response. *)
Definition M (A : Type) : Type := list event -> result A * list event.

Definition ret {A} (a : A) : M A := fun log => (Ok a, log).

Definition bind {A B} (m : M A) (k : A -> M B) : M B :=
  fun log =>
    match m log with
    | (Ok a, log') => k a log'
    | (Throw e, log') => (Throw e, log')
    end.

Definition lift {A} (r : result A) : M A := fun log => (r, log).

Definition emit (e : event) : M unit := fun log => (Ok tt, log ++ [e]).

(** [try { m } catch (err) { h err }] *)
Definition try_catch {A} (m : M A) (h : exn -> M A) : M A :=
  fun log =>
    match m log with
    | (Ok a, log') => (Ok a, log')
    | (Throw e, log') => h e log'
    end.

Definition run {A} (m : M A) : result A * list event := m [].

Declare Scope handler_scope.
Delimit Scope handler_scope with handler.
Notation "x <- m ;; k" := (bind m (fun x => k))
  (at level 100, m at next level, right associativity) : handler_scope.
Notation "m ;; k" := (bind m (fun _ => k))
  (at level 100, right associativity) : handler_scope.

Definition respond_json (code : N) (error : string) : M Response :=
  ret {| status := code; payload := Json error None |}.

Definition respond_send (code : N) (t : string) : M Response :=
  ret {| status := code; payload := Send t |}.

(** [crypto.timingSafeEqual], logged. *)
Definition timingSafeEqual (a b : Buffer) : M bool :=
  (emit (TimingSafeEqual a b) ;;
   match Crypto.timingSafeEqual a b with
   | Some r => ret r
   | None => lift (Throw RangeError)
   end)%handler.

(** [await axios.post(url, data)], logged. *)
Definition axios_post (w : World) (r : AxiosRequest) : M unit :=
  (emit (AxiosPost r) ;;
   match telegram w r with
   | None => ret tt
   | Some d => lift (Throw (AxiosError d))
   end)%handler.

(* ------------------------------------------------------------------------ *)
(** ** Message formatting and delivery, common to the two servers *)

(** The two servers differ in three constants of this part. *)
Record Flavour : Type := {
  rocket : jsstring;       (* the characters that open the header line *)
  separator : jsstring;    (* between the header line and the commit lines *)
  markdown : string        (* parse_mode *)
}.

Module Push.

Import JS.

(** [c.k?.length || 0] *)
Definition count (c : value) (k : jsstring) : result value :=
  (files <- get c k ;;
   len <- get_opt files (lit "length") ;;
   Ok (or_else len (VNum 0)))%result.

(** The callback of [commits.map]. *)
Definition commitLine (c : value) : result jsstring :=
  (added <- count c (lit "added") ;;
   modified <- count c (lit "modified") ;;
   removed <- count c (lit "removed") ;;
   message <- get c (lit "message") ;;
   message_s <- toString message ;;
   id <- get c (lit "id") ;;
   short <- slice0 id 7 ;;
   short_s <- toString short ;;
   url <- get c (lit "url") ;;
   url_s <- toString url ;;
   author <- get c (lit "author") ;;
   name <- get_opt author (lit "name") ;;
   name_s <- toString (coalesce name (VStr (lit "unknown"))) ;;
   added_s <- toString added ;;
   modified_s <- toString modified ;;
   removed_s <- toString removed ;;
   Ok (lit "- " ++ message_s ++ lit " ([" ++ short_s ++ lit "](" ++ url_s
       ++ lit ")) by " ++ name_s ++ lit " (added: " ++ added_s
       ++ lit ", modified: " ++ modified_s ++ lit ", removed: " ++ removed_s
       ++ lit ")"))%result.

(** [commitMessages]: the lines joined by a line feed. *)
Definition commitMessages (commits : value) : result jsstring :=
  (lines <- array_map commits commitLine ;;
   Ok (join [10%N] lines))%result.

(** [message] *)
Definition message (f : Flavour) (pusher repository commits : value) : result jsstring :=
  (commit_lines <- commitMessages commits ;;
   pusher_name <- get pusher (lit "name") ;;
   pusher_s <- toString pusher_name ;;
   repo_name <- get repository (lit "name") ;;
   repo_s <- toString repo_name ;;
   repo_url <- get repository (lit "html_url") ;;
   url_s <- toString repo_url ;;
   Ok (rocket f ++ lit " *" ++ pusher_s ++ lit "* pushed to [" ++ repo_s
       ++ lit "](" ++ url_s ++ lit "):" ++ separator f ++ commit_lines))%result.

(** The [try] block: one post, then 200; anything thrown inside is a 500. *)
Definition send (f : Flavour) (w : World) (config : value) (msg : jsstring) : M Response :=
  try_catch
    (token <- lift (get config (lit "botToken")) ;;
     token_s <- lift (toString token) ;;
     chat <- lift (get config (lit "chatId")) ;;
     thread <- lift (get config (lit "threadId")) ;;
     axios_post w {| url := TELEGRAM_API_DOMAIN w ++ lit "/bot" ++ token_s
                              ++ lit "/sendMessage";
                     chat_id := chat;
                     message_thread_id := thread;
                     text := msg;
                     parse_mode := markdown f;
                     disable_web_page_preview := true |} ;;
     respond_send 200 "OK")%handler
    (fun err => ret {| status := 500;
                       payload := Json "Failed to send Telegram message" (Some err) |}).

(** Payload validation, formatting and delivery: from the destructuring of
    [req.body] to the end of the handler. *)
Definition relay (f : Flavour) (w : World) (config : value) (req : Request) : M Response :=
  (pusher <- lift (get (body req) (lit "pusher")) ;;
   repository <- lift (get (body req) (lit "repository")) ;;
   commits <- lift (get (body req) (lit "commits")) ;;
   if negb (truthy pusher) || negb (truthy repository) || negb (truthy commits)
   then respond_json 400 "Malformed GitHub push event payload"
   else
     msg <- lift (message f pusher repository commits) ;;
     send f w config msg)%handler.

End Push.

(* ------------------------------------------------------------------------ *)
(** ** [src/main.ts]: the server without signature validation *)

Module Plain.

Import JS.

Definition flavour : Flavour :=
  {| rocket := [0xD83D; 0xDE80]%N; separator := [10%N]; markdown := "Markdown" |}.

(** [app.post('/webhook/:projectName', ...)] *)
Definition webhook (w : World) (req : Request) : M Response :=
  (config <- lift (get (VObj (projectConfigs w)) (projectName req)) ;;
   if negb (truthy config)
   then respond_json 404 "Project config not found"
   else Push.relay flavour w config req)%handler.

End Plain.

(* ------------------------------------------------------------------------ *)
(** ** The server with the ping branch and signature validation *)

Module Signed.

Import JS.

(** The header line opens with the four characters U+00F0 U+0178 U+0161
    U+20AC of the source text. *)
Definition flavour : Flavour :=
  {| rocket := [0xF0; 0x178; 0x161; 0x20AC]%N;
     separator := [10%N; 10%N];
     markdown := "MarkdownV2" |}.

(** [crypto.createHmac('sha256', secret)] then [update] and [digest('hex')]:
    a string key is taken in UTF-8; a truthy JSON value that is not a string
    is not a key. *)
Definition hmac_hex (secret : value) (raw : Buffer) : result string :=
  match secret with
  | VStr s => Ok (Hex.encode (Crypto.hmac_sha256 (utf8_encode s) raw))
  | _ => Throw TypeError
  end.

(** [header.startsWith('sha256=')] and [header.slice('sha256='.length)]. *)
Definition startsWith (p s : string) : bool := String.prefix p s.
Definition slice_from (n : nat) (s : string) : string :=
  String.substring n (String.length s - n) s.

(** The block between the markers "Begin/End: GitHub signature validation".
    [None]: the block falls through to the payload validation. *)
Definition signatureValidation (config : value) (req : Request) : M (option Response) :=
  (secret <- lift (get config (lit "webhookSecret")) ;;
   if negb (truthy secret)
   then r <- respond_json 500 "Webhook secret not configured for this project" ;;
        ret (Some r)
   else
     match x_hub_signature_256 req with
     | None => r <- respond_json 401 "Missing or invalid signature" ;; ret (Some r)
     | Some signatureHeader =>
         if negb (startsWith "sha256=" signatureHeader)
         then r <- respond_json 401 "Missing or invalid signature" ;; ret (Some r)
         else
           match rawBody req with
           | None =>
               r <- respond_json 400 "Missing raw body for signature validation" ;;
               ret (Some r)
           | Some raw =>
               digest <- lift (hmac_hex secret raw) ;;
               let signature := slice_from 7 signatureHeader in
               let sigBuf := Hex.decode signature in
               let digestBuf := Hex.decode digest in
               mismatch <-
                 (if negb (length sigBuf =? length digestBuf)%nat
                  then ret true
                  else equal <- timingSafeEqual sigBuf digestBuf ;; ret (negb equal)) ;;
               if (mismatch : bool)
               then r <- respond_json 401 "Invalid signature" ;; ret (Some r)
               else ret None
           end
     end)%handler.

(** [app.post('/webhook/:projectName', ...)] *)
Definition webhook (w : World) (req : Request) : M Response :=
  (config <- lift (get (VObj (projectConfigs w)) (projectName req)) ;;
   if negb (truthy config)
   then respond_json 404 "Project config not found"
   else
     if header_is (x_github_event req) "ping"
     then respond_send 200 "pong"
     else
       checked <- signatureValidation config req ;;
       match checked with
       | Some r => ret r
       | None => Push.relay flavour w config req
       end)%handler.

End Signed.

(* ------------------------------------------------------------------------ *)
(** ** The data model of a push event *)

(** Modelled from the spec: the interface [GithubPushEvent] of
    [./github-interfaces] (the file is not part of the sources), after the
    data model PushEvent / Commit, and the interface [ProjectConfig] that
    both servers declare.  The encoders give the JSON value body-parser
    produces for a conforming document; an optional field that is absent is
    left out. *)
Module Model.

Record Commit : Type := {
  c_id : jsstring;
  c_message : jsstring;
  c_url : jsstring;
  c_author : option jsstring;            (* author.name *)
  c_added : option (list jsstring);
  c_modified : option (list jsstring);
  c_removed : option (list jsstring)
}.

Record PushEvent : Type := {
  pusher_name : jsstring;
  repository_name : jsstring;
  repository_html_url : jsstring;
  commits : list Commit
}.

Inductive ChatId : Type :=
| ChatNumber (n : Z)
| ChatName (s : jsstring).

Record ProjectConfig : Type := {
  botToken : jsstring;
  chatId : ChatId;
  threadId : option Z;
  webhookSecret : option jsstring
}.

Definition field {A} (k : string) (enc : A -> value) (o : option A)
  : list (jsstring * value) :=
  match o with
  | Some a => [(lit k, enc a)]
  | None => []
  end.

Definition paths (l : list jsstring) : value := VArr (map VStr l).

Definition commit_value (c : Commit) : value :=
  VObj ([(lit "id", VStr (c_id c));
         (lit "message", VStr (c_message c));
         (lit "url", VStr (c_url c))]
        ++ field "author" (fun n => VObj [(lit "name", VStr n)]) (c_author c)
        ++ field "added" paths (c_added c)
        ++ field "modified" paths (c_modified c)
        ++ field "removed" paths (c_removed c)).

Definition event_value (e : PushEvent) : value :=
  VObj [(lit "pusher", VObj [(lit "name", VStr (pusher_name e))]);
        (lit "repository", VObj [(lit "name", VStr (repository_name e));
                                 (lit "html_url", VStr (repository_html_url e))]);
        (lit "commits", VArr (map commit_value (commits e)))].

Definition chat_value (c : ChatId) : value :=
  match c with
  | ChatNumber n => VNum n
  | ChatName s => VStr s
  end.

Definition config_value (c : ProjectConfig) : value :=
  VObj ([(lit "botToken", VStr (botToken c));
         (lit "chatId", chat_value (chatId c))]
        ++ field "threadId" VNum (threadId c)
        ++ field "webhookSecret" VStr (webhookSecret c)).

(** The line of one commit, in the words of the specification:
    [- <message> ([<7-char-prefix of id>](<url>)) by <author name or
    "unknown"> (added: <n>, modified: <n>, removed: <n>)]. *)
Definition files (o : option (list jsstring)) : nat :=
  match o with
  | Some l => length l
  | None => 0
  end.

Definition line (c : Commit) : jsstring :=
  lit "- " ++ c_message c ++ lit " ([" ++ firstn 7 (c_id c) ++ lit "]("
  ++ c_url c ++ lit ")) by "
  ++ match c_author c with Some n => n | None => lit "unknown" end
  ++ lit " (added: " ++ JS.decimal (Z.of_nat (files (c_added c)))
  ++ lit ", modified: " ++ JS.decimal (Z.of_nat (files (c_modified c)))
  ++ lit ", removed: " ++ JS.decimal (Z.of_nat (files (c_removed c)))
  ++ lit ")".

End Model.

(* ------------------------------------------------------------------------ *)
(** ** Vocabulary of the properties *)

(** The tag the server computes for a request: HMAC-SHA256 of the raw body
    under the UTF-8 octets of the secret. *)
Definition expected (secret : jsstring) (raw : Buffer) : Buffer :=
  Crypto.hmac_sha256 (utf8_encode secret) raw.

Definition invalid_signature : Response :=
  {| status := 401; payload := Json "Invalid signature" None |}.

(** The request passed the validation block: the block fell through. *)
Definition accepted (config : value) (req : Request) : Prop :=
  fst (run (Signed.signatureValidation config req)) = Ok None.

Definition not_found : Response :=
  {| status := 404; payload := Json "Project config not found" None |}.

Definition pong : Response := {| status := 200; payload := Send "pong" |}.

Definition secret_not_configured : Response :=
  {| status := 500; payload := Json "Webhook secret not configured for this project" None |}.

Definition malformed : Response :=
  {| status := 400; payload := Json "Malformed GitHub push event payload" None |}.

Definition ok : Response := {| status := 200; payload := Send "OK" |}.

Definition delivery_failed (detail : string) : Response :=
  {| status := 500;
     payload := Json "Failed to send Telegram message" (Some (AxiosError detail)) |}.

(** [projectName] is a key of the loaded configuration, and [config] is what
    the key holds: a project configuration (an object, hence truthy). *)
Definition known (w : World) (req : Request) (config : value) : Prop :=
  JS.own (projectName req) (projectConfigs w) = Some config /\ JS.truthy config = true.

(** The fields the payload validation asks for. *)
Definition required : list string := ["pusher"; "repository"; "commits"]%string.

(** The parsed payload is an object that has no field [k]. *)
Definition missing (k : string) (b : value) : Prop :=
  exists props, b = VObj props /\ JS.own (lit k) props = None.

(** The parsed payload is an object whose field [k] is there and falsy. *)
Definition falsy_field (k : string) (b : value) : Prop :=
  exists props v, b = VObj props /\ JS.own (lit k) props = Some v /\ JS.truthy v = false.

(** The text the handler builds from a parsed body: the destructuring of
    [req.body] followed by [message]. *)
Definition formatted (f : Flavour) (b : value) : result jsstring :=
  (pusher <- JS.get b (lit "pusher") ;;
   repository <- JS.get b (lit "repository") ;;
   commits <- JS.get b (lit "commits") ;;
   Push.message f pusher repository commits)%result.

(** A commit as the handler finds it in a parsed body represents the commit
    [c] of the data model: the three mandatory fields are strings, the author
    is missing ([undefined] or [null], or without a name) or has a name, and
    each of the three lists is missing or an array of that many entries.  Any
    other property may be there. *)
Definition has_name (a : value) (o : option jsstring) : Prop :=
  match o with
  | Some n => JS.get a (lit "name") = Ok (VStr n)
  | None => JS.nullish a = true
            \/ exists x, JS.get a (lit "name") = Ok x /\ JS.nullish x = true
  end.

Definition has_files (x : value) (o : option (list jsstring)) : Prop :=
  match o with
  | Some l => exists items, x = VArr items /\ length items = length l
  | None => JS.nullish x = true
  end.

Definition represents (v : value) (c : Model.Commit) : Prop :=
  JS.get v (lit "id") = Ok (VStr (Model.c_id c))
  /\ JS.get v (lit "message") = Ok (VStr (Model.c_message c))
  /\ JS.get v (lit "url") = Ok (VStr (Model.c_url c))
  /\ (exists a, JS.get v (lit "author") = Ok a /\ has_name a (Model.c_author c))
  /\ (exists x, JS.get v (lit "added") = Ok x /\ has_files x (Model.c_added c))
  /\ (exists x, JS.get v (lit "modified") = Ok x /\ has_files x (Model.c_modified c))
  /\ (exists x, JS.get v (lit "removed") = Ok x /\ has_files x (Model.c_removed c)).

(** The answer to the caller after the post [r]: 200 "OK" when the post
    succeeds, 500 with the error when it fails. *)
Definition delivered (w : World) (r : AxiosRequest) : Response :=
  match telegram w r with
  | None => ok
  | Some d => delivery_failed d
  end.

(** The header line of a message: the opening characters, the pusher, and
    the repository name linked to its URL. *)
Definition header_line (f : Flavour) (pusher repo repo_url : jsstring) : jsstring :=
  rocket f ++ lit " *" ++ pusher ++ lit "* pushed to [" ++ repo ++ lit "](" ++ repo_url
  ++ lit "):".

(** The posts of a log, in order. *)
Definition posts (log : list event) : list AxiosRequest :=
  flat_map (fun e => match e with AxiosPost r => [r] | _ => [] end) log.

(** The comparisons of a log, in order. *)
Definition comparisons (log : list event) : list (Buffer * Buffer) :=
  flat_map (fun e => match e with TimingSafeEqual a b => [(a, b)] | _ => [] end) log.

(** *** Sample data *)

Module Sample.

Definition str (s : string) : value := VStr (lit s).
Definition obj (l : list (string * value)) : value :=
  VObj (map (fun p => (lit (fst p), snd p)) l).

Definition demo : Model.ProjectConfig :=
  {| Model.botToken := lit "TOKEN"; Model.chatId := Model.ChatNumber (-100);
     Model.threadId := None; Model.webhookSecret := Some (lit "s3cret") |}.

Definition unsigned : Model.ProjectConfig :=
  {| Model.botToken := lit "TOKEN"; Model.chatId := Model.ChatNumber (-100);
     Model.threadId := Some 7%Z; Model.webhookSecret := None |}.

(** A process with the projects [demo] (with a secret) and [open] (without),
    whose posts to Telegram succeed. *)
Definition world : World :=
  {| projectConfigs := [(lit "demo", Model.config_value demo);
                        (lit "open", Model.config_value unsigned)];
     env_TELEGRAM_API_DOMAIN := None;
     telegram := fun _ => None |}.

(** The same projects behind another API domain whose posts fail. *)
Definition offline : World :=
  {| projectConfigs := projectConfigs world;
     env_TELEGRAM_API_DOMAIN := Some (lit "http://localhost:8081");
     telegram := fun _ => Some "ECONNREFUSED"%string |}.

Definition fix_bug : Model.Commit :=
  {| Model.c_id := lit "abcdef1234567";
     Model.c_message := lit "fix bug";
     Model.c_url := lit "https://x/commit/abcdef1234567";
     Model.c_author := Some (lit "alice");
     Model.c_added := Some [lit "a.txt"];
     Model.c_modified := Some [];
     Model.c_removed := Some [] |}.

Definition push : value :=
  Model.event_value
    {| Model.pusher_name := lit "bob"; Model.repository_name := lit "repo";
       Model.repository_html_url := lit "https://x"; Model.commits := [fix_bug] |}.

Definition empty_push : value :=
  Model.event_value
    {| Model.pusher_name := lit "bob"; Model.repository_name := lit "repo";
       Model.repository_html_url := lit "https://x"; Model.commits := [] |}.

(** A payload without [commits], and one whose [pusher] is the number 0. *)
Definition no_commits : value :=
  obj [("pusher", obj [("name", str "bob")]);
       ("repository", obj [("name", str "repo"); ("html_url", str "https://x")])]%string.

Definition zero_pusher : value :=
  obj [("pusher", VNum 0);
       ("repository", obj [("name", str "repo"); ("html_url", str "https://x")]);
       ("commits", VArr [])]%string.

(** A commit with nothing but the three mandatory fields. *)
Definition bare : Model.Commit :=
  {| Model.c_id := lit "0123456789";
     Model.c_message := lit "wip";
     Model.c_url := lit "https://x/c/0123456789";
     Model.c_author := None;
     Model.c_added := None; Model.c_modified := None; Model.c_removed := None |}.

(** The commit [fix_bug] as GitHub sends it: with more properties, and
    [null] where the data model has nothing. *)
Definition fix_bug_wire : value :=
  obj [("id", str "abcdef1234567");
       ("tree_id", str "0000000");
       ("distinct", VBool true);
       ("message", str "fix bug");
       ("url", str "https://x/commit/abcdef1234567");
       ("author", obj [("name", str "alice"); ("email", str "alice@x")]);
       ("added", VArr [str "a.txt"]);
       ("removed", VArr []);
       ("modified", VArr [])]%string.

(** The JSON text of a sample value (the strings of the samples need no
    escapes), and the octets of the request body that carries it. *)
Fixpoint json_text (v : value) : jsstring :=
  match v with
  | VUndefined | VNull | VBuiltin _ => lit "null"
  | VBool true => lit "true"
  | VBool false => lit "false"
  | VNum n => JS.decimal n
  | VStr s => [34%N] ++ s ++ [34%N]
  | VArr items =>
      lit "[" ++ JS.join (lit ",") (map json_text items) ++ lit "]"
  | VObj props =>
      lit "{"
      ++ JS.join (lit ",")
           (map (fun p => [34%N] ++ fst p ++ [34%N] ++ lit ":" ++ json_text (snd p)) props)
      ++ lit "}"
  end.

Definition wire (b : value) : Buffer := utf8_encode (json_text b).

(** A request with the body [b]: body-parser hands the octets to
    [rawBodySaver] and parses them. *)
Definition request (project : string) (event signature : option string)
           (b : value) : Request :=
  {| projectName := lit project;
     x_github_event := event;
     x_hub_signature_256 := signature;
     rawBody := rawBodySaver (wire b);
     body := b |}.

(** The signature header GitHub computes for the body [b] under [secret]. *)
Definition sign (secret : string) (b : value) : string :=
  "sha256=" ++ Hex.encode (Crypto.hmac_sha256 (utf8_encode (lit secret)) (wire b)).

(** The HMAC-SHA256 tag of the body [{}] under the secret of [demo], in
    lower and in upper case. *)
Definition tag : string :=
  "adbde1ce40c89c14215687d5d762a47df6dfaefcfad61e2e86718ffc8498571b".
Definition TAG : string :=
  "ADBDE1CE40C89C14215687D5D762A47DF6DFAEFCFAD61E2E86718FFC8498571B".

(** The post [src/main.ts] makes for [push], by API domain and thread. *)
Definition post (domain : jsstring) (thread : value) : AxiosRequest :=
  {| url := domain ++ lit "/botTOKEN/sendMessage";
     chat_id := VNum (-100);
     message_thread_id := thread;
     text := header_line Plain.flavour (lit "bob") (lit "repo") (lit "https://x")
             ++ [10%N] ++ Model.line fix_bug;
     parse_mode := "Markdown";
     disable_web_page_preview := true |}.

End Sample.

(* ------------------------------------------------------------------------ *)
(** ** Loading the configuration *)

(** [loadProjectConfigs], run once when the process starts.  The file system
    is what the function observes of it: whether [config.json] exists and
    what reading it gives.  [JSON.parse] is the library's: it is a parameter,
    returning the parsed document or the message of its [SyntaxError]. *)
Module Config.

Inductive load_error : Type :=
| ReadFailed (code : string)            (* fs.readFileSync threw *)
| SyntaxError (message : string).       (* JSON.parse threw *)

Record Disk : Type := {
  existsSync : bool;                    (* fs.existsSync(configPath) *)
  readFileSync : string + jsstring      (* fs.readFileSync(configPath, 'utf-8') *)
}.

Inductive console : Type :=
| Warn (text : string)                       (* console.warn(text) *)
| Error (text : string) (e : load_error).    (* console.error(text, e) *)

Section Loader.

Variable JSON_parse : jsstring -> string + value.

(** The body of the [try] block. *)
Definition attempt (d : Disk) : (load_error + value) * list console :=
  if existsSync d
  then
    match readFileSync d with
    | inl code => (inl (ReadFailed code), [])
    | inr raw =>
        match JSON_parse raw with
        | inl message => (inl (SyntaxError message), [])
        | inr v => (inr v, [])
        end
    end
  else (inr (VObj []), [Warn "config.json not found, using empty project configs."]).

Definition loadProjectConfigs (d : Disk) : value * list console :=
  match attempt d with
  | (inr v, out) => (v, out)
  | (inl e, out) => (VObj [], out ++ [Error "Failed to read config.json:" e])
  end.

(** [const projectConfigs = loadProjectConfigs()]: the process a disk gives,
    when the loaded document is an object. *)
Definition start (d : Disk) (domain : option jsstring)
           (net : AxiosRequest -> option string) : option World :=
  match fst (loadProjectConfigs d) with
  | VObj props =>
      Some {| projectConfigs := props;
              env_TELEGRAM_API_DOMAIN := domain;
              telegram := net |}
  | _ => None
  end.

End Loader.

End Config.

(* ------------------------------------------------------------------------ *)
(** ** Vocabulary of the further properties *)

(** What [projectConfigs[projectName]] evaluates to. *)
Definition configured (w : World) (req : Request) : value :=
  match JS.own (projectName req) (projectConfigs w) with
  | Some v => v
  | None => JS.inherited (projectName req)
  end.

(** The answer when the [try] block throws before or instead of posting. *)
Definition send_failed (e : exn) : Response :=
  {| status := 500; payload := Json "Failed to send Telegram message" (Some e) |}.

Definition missing_signature : Response :=
  {| status := 401; payload := Json "Missing or invalid signature" None |}.

Definition missing_raw_body : Response :=
  {| status := 400; payload := Json "Missing raw body for signature validation" None |}.

(** The request carries a valid signature for the project [config]: a string
    secret that is not empty, a header [sha256=<sig>], a raw body, and [sig]
    decodes to the tag of the raw body. *)
Definition authentic (config : value) (req : Request) : Prop :=
  exists secret sig raw,
    JS.get config (lit "webhookSecret") = Ok (VStr secret) /\ secret <> []
    /\ x_hub_signature_256 req = Some ("sha256=" ++ sig)%string
    /\ rawBody req = Some raw
    /\ Hex.decode sig = expected secret raw.

(** ASCII lower case, as [String.prototype.toLowerCase] on a header value of
    hexadecimal digits. *)
Definition lower (c : ascii) : ascii :=
  let n := N_of_ascii c in
  if (65 <=? n)%N && (n <=? 90)%N then ascii_of_N (n + 32) else c.

Fixpoint lower_string (s : string) : string :=
  match s with
  | EmptyString => EmptyString
  | String c rest => String (lower c) (lower_string rest)
  end.

(** The text consists of hexadecimal digits. *)
Fixpoint all_hex (s : string) : bool :=
  match s with
  | EmptyString => true
  | String c rest =>
      match Hex.unhex c with
      | Some _ => all_hex rest
      | None => false
      end
  end.

(** The post a server makes for the push event [e] of the data model to the
    project [c]: what [axios.post] is called with. *)
Definition notification (f : Flavour) (w : World) (c : Model.ProjectConfig)
           (e : Model.PushEvent) : AxiosRequest :=
  {| url := TELEGRAM_API_DOMAIN w ++ lit "/bot" ++ Model.botToken c ++ lit "/sendMessage";
     chat_id := Model.chat_value (Model.chatId c);
     message_thread_id := match Model.threadId c with
                          | Some n => VNum n
                          | None => VUndefined
                          end;
     text := header_line f (Model.pusher_name e) (Model.repository_name e)
               (Model.repository_html_url e)
             ++ separator f ++ JS.join [10%N] (map Model.line (Model.commits e));
     parse_mode := markdown f;
     disable_web_page_preview := true |}.

(** The outcomes of [relay] started with the log [log]: the handler throws;
    400; 500 before any post; or one post and the answer that goes with it. *)
Definition relayed (f : Flavour) (w : World) (config : value) (req : Request)
           (log : list event) (out : result Response * list event) : Prop :=
  (exists e, out = (Throw e, log))
  \/ out = (Ok malformed, log)
  \/ (exists e, out = (Ok (send_failed e), log))
  \/ exists r,
       out = (Ok (delivered w r), log ++ [AxiosPost r])
       /\ formatted f (body req) = Ok (text r)
       /\ JS.get config (lit "chatId") = Ok (chat_id r)
       /\ JS.get config (lit "threadId") = Ok (message_thread_id r)
       /\ (exists token token_s,
             JS.get config (lit "botToken") = Ok token
             /\ JS.toString token = Ok token_s
             /\ url r = TELEGRAM_API_DOMAIN w ++ lit "/bot" ++ token_s ++ lit "/sendMessage")
       /\ parse_mode r = markdown f
       /\ disable_web_page_preview r = true.

(** *** More sample data *)

Module Demo.

(** A push of two commits by [bob]. *)
Definition event : Model.PushEvent :=
  {| Model.pusher_name := lit "bob"; Model.repository_name := lit "repo";
     Model.repository_html_url := lit "https://x";
     Model.commits := [Sample.fix_bug; Sample.bare] |}.

(** The request GitHub sends for it to the project [demo], signed. *)
Definition signed_push : Request :=
  Sample.request "demo" (Some "push"%string)
    (Some (Sample.sign "s3cret" (Model.event_value event)))
    (Model.event_value event).

(** The same push sent to [project] without a signature. *)
Definition push_to (project : string) : Request :=
  Sample.request project (Some "push"%string) None (Model.event_value event).

(** No [config.json]. *)
Definition no_file : Config.Disk :=
  {| Config.existsSync := false; Config.readFileSync := inl "ENOENT"%string |}.

(** A [config.json] that is cut short, and a parser that says so. *)
Definition cut_short : Config.Disk :=
  {| Config.existsSync := true; Config.readFileSync := inr (lit "{") |}.

Definition parse (raw : jsstring) : string + value :=
  inl "Unexpected end of JSON input"%string.

End Demo.

(** Picks the response among the alternatives of a disjunction. *)
Ltac which :=
  first [ reflexivity | left; reflexivity | right; which ].

(** Unfolds the plumbing of the handler monad. *)
Ltac step := unfold bind, lift, ret, respond_json, respond_send.

Arguments Crypto.hmac_sha256 : simpl never.
Arguments utf8_encode : simpl never.
Arguments Hex.decode : simpl never.
Arguments Hex.encode : simpl never.

(* ------------------------------------------------------------------------ *)
(** * Properties *)

(** ** Library facts *)

(** The test vectors of FIPS 180-4 and RFC 4231 (cases 2 and 6), and the
    examples of the Node documentation of [Buffer.from(s, 'hex')]. *)
Example sha256_abc :
  Hex.encode (Crypto.sha256 (ascii_bytes "abc"))
  = "ba7816bf8f01cfea414140de5dae2223b00361a396177a9cb410ff61f20015ad"%string.
Proof. vm_compute; reflexivity. Qed.

Example sha256_two_blocks :
  Hex.encode (Crypto.sha256
                (ascii_bytes "abcdbcdecdefdefgefghfghighijhijkijkljklmklmnlmnomnopnopq"))
  = "248d6a61d20638b8e5c026930c3e6039a33ce45964ff2167f6ecedd419db06c1"%string.
Proof. vm_compute; reflexivity. Qed.

Example hmac_rfc4231_2 :
  Hex.encode (Crypto.hmac_sha256 (ascii_bytes "Jefe")
                                 (ascii_bytes "what do ya want for nothing?"))
  = "5bdcc146bf60754e6a042426089575c75a003f089d2739839dec58b964ec3843"%string.
Proof. vm_compute; reflexivity. Qed.

Example hmac_rfc4231_6 :
  Hex.encode (Crypto.hmac_sha256
                (repeat xaa 131)
                (ascii_bytes "Test Using Larger Than Block-Size Key - Hash Key First"))
  = "60e431591ee0b67f0d8a26aacbf5b77f8e0bc6213728c5140546040f0ee37f54"%string.
Proof. vm_compute; reflexivity. Qed.

Example hex_truncated :
  Hex.decode "1ag123" = [x1a] /\ Hex.decode "1a7" = [x1a]
  /\ Hex.decode "1634" = [x16; x34] /\ Hex.decode "1A" = [x1a].
Proof. repeat split; vm_compute; reflexivity. Qed.

Example utf8_rocket :
  Hex.encode (utf8_encode [0xD83D; 0xDE80; 0xE9; 0x20AC; 0x41]%N) = "f09f9a80c3a9e282ac41"%string.
Proof. vm_compute; reflexivity. Qed.

Lemma jsstring_eqb_refl (a : jsstring) : jsstring_eqb a a = true.
Proof.
  induction a as [|x a IH]; simpl; [reflexivity|].
  now rewrite N.eqb_refl, IH.
Qed.

Lemma jsstring_eqb_eq (a b : jsstring) : jsstring_eqb a b = true <-> a = b.
Proof.
  split; [|intros ->; apply jsstring_eqb_refl].
  revert b; induction a as [|x a IH]; intros [|y b]; simpl; try discriminate; auto.
  intros H; apply andb_true_iff in H as [Hx Ha].
  apply N.eqb_eq in Hx; subst; f_equal; auto.
Qed.

Lemma hex_pair (x : byte) (s : string) :
  Hex.decode (String (Hex.digit (N_of_byte x / 16))
                (String (Hex.digit (N_of_byte x mod 16)) s))
  = x :: Hex.decode s.
Proof. destruct x; reflexivity. Qed.

(** Decoding the hexadecimal text of a Buffer gives the Buffer back. *)
Lemma hex_decode_encode (b : Buffer) : Hex.decode (Hex.encode b) = b.
Proof.
  induction b as [|x b IH]; [reflexivity|].
  change (Hex.encode (x :: b))
    with (String (Hex.digit (N_of_byte x / 16))
            (String (Hex.digit (N_of_byte x mod 16)) (Hex.encode b))).
  rewrite hex_pair; now rewrite IH.
Qed.

Lemma sha256_length (msg : Buffer) : length (Crypto.sha256 msg) = 32%nat.
Proof. reflexivity. Qed.

(** An HMAC-SHA256 tag has 32 octets. *)
Lemma hmac_sha256_length (key msg : Buffer) : length (Crypto.hmac_sha256 key msg) = 32%nat.
Proof. unfold Crypto.hmac_sha256; apply sha256_length. Qed.

Lemma bytes_eqb_eq (a b : Buffer) :
  length a = length b ->
  (forallb (fun p => Byte.eqb (fst p) (snd p)) (combine a b) = true <-> a = b).
Proof.
  revert b; induction a as [|x a IH]; intros [|y b]; simpl; try discriminate.
  - intros _; split; auto.
  - intros H; injection H as H. rewrite andb_true_iff, IH by assumption. split.
    + intros [E ->]; apply Byte.byte_dec_bl in E; now subst.
    + intros E; injection E as -> ->; split; [now apply Byte.byte_dec_lb | reflexivity].
Qed.

Lemma timingSafeEqual_same_length (a b : Buffer) :
  length a = length b ->
  exists r, Crypto.timingSafeEqual a b = Some r /\ (r = true <-> a = b).
Proof.
  intros H. unfold Crypto.timingSafeEqual.
  rewrite (proj2 (Nat.eqb_eq _ _) H).
  eexists; split; [reflexivity | now apply bytes_eqb_eq].
Qed.

Lemma substring_all (s : string) : String.substring 0 (String.length s) s = s.
Proof. induction s as [|c s IH]; simpl; [reflexivity | now rewrite IH]. Qed.

Lemma startsWith_sha256 (sig : string) :
  Signed.startsWith "sha256=" ("sha256=" ++ sig) = true.
Proof.
  unfold Signed.startsWith; simpl. destruct sig; reflexivity.
Qed.

Lemma slice_sha256 (sig : string) : Signed.slice_from 7 ("sha256=" ++ sig) = sig.
Proof. unfold Signed.slice_from; simpl. rewrite Nat.sub_0_r. apply substring_all. Qed.

(** ** The signature validation block *)

Section Validation.

Variables (config : value) (req : Request).
Variables (secret : jsstring) (sig : string) (raw : Buffer).

Hypothesis secret_configured :
  JS.get config (lit "webhookSecret") = Ok (VStr secret) /\ secret <> [].
Hypothesis signed : x_hub_signature_256 req = Some ("sha256=" ++ sig)%string.
Hypothesis has_raw : rawBody req = Some raw.

(** What the block does once the secret, the header and the raw body are
    there: the length test first, the comparison only on equal lengths. *)
Lemma signatureValidation_checked (log : list event) :
  Signed.signatureValidation config req log =
  if (length (Hex.decode sig) =? 32)%nat
  then
    match Crypto.timingSafeEqual (Hex.decode sig) (expected secret raw) with
    | Some true => (Ok None, log ++ [TimingSafeEqual (Hex.decode sig) (expected secret raw)])
    | Some false =>
        (Ok (Some invalid_signature),
         log ++ [TimingSafeEqual (Hex.decode sig) (expected secret raw)])
    | None => (Throw RangeError,
               log ++ [TimingSafeEqual (Hex.decode sig) (expected secret raw)])
    end
  else (Ok (Some invalid_signature), log).
Proof.
  destruct secret_configured as [Hget Hne].
  unfold Signed.signatureValidation, bind, lift.
  rewrite Hget.
  assert (Ht : JS.truthy (VStr secret) = true)
    by (destruct secret; [contradiction | reflexivity]).
  rewrite Ht, signed, startsWith_sha256, has_raw; cbn [negb Signed.hmac_hex].
  rewrite slice_sha256, hex_decode_encode, hmac_sha256_length.
  fold (expected secret raw).
  destruct (length (Hex.decode sig) =? 32)%nat; cbn [negb]; [|reflexivity].
  unfold timingSafeEqual, bind, emit, ret, lift.
  destruct (Crypto.timingSafeEqual (Hex.decode sig) (expected secret raw)) as [[|]|];
    reflexivity.
Qed.

Lemma accepted_iff_decoded : accepted config req <-> Hex.decode sig = expected secret raw.
Proof.
  unfold accepted, run. rewrite signatureValidation_checked.
  destruct (length (Hex.decode sig) =? 32)%nat eqn:Hlen.
  - apply Nat.eqb_eq in Hlen.
    destruct (timingSafeEqual_same_length (Hex.decode sig) (expected secret raw))
      as (r & -> & Hr).
    { rewrite Hlen; unfold expected; now rewrite hmac_sha256_length. }
    destruct r; cbn [fst]; split; intros H; try reflexivity; try discriminate.
    + now apply Hr.
    + apply Hr in H; discriminate.
  - cbn [fst]. split; [discriminate|].
    intros E. apply Nat.eqb_neq in Hlen. exfalso; apply Hlen.
    rewrite E; unfold expected; apply hmac_sha256_length.
Qed.

Lemma rejected_unless_decoded :
  Hex.decode sig <> expected secret raw ->
  fst (run (Signed.signatureValidation config req)) = Ok (Some invalid_signature).
Proof.
  intros Hne. unfold run. rewrite signatureValidation_checked.
  destruct (length (Hex.decode sig) =? 32)%nat eqn:Hlen; [|reflexivity].
  apply Nat.eqb_eq in Hlen.
  destruct (timingSafeEqual_same_length (Hex.decode sig) (expected secret raw))
    as (r & -> & Hr).
  { rewrite Hlen; unfold expected; now rewrite hmac_sha256_length. }
  destruct r; [|reflexivity]. exfalso; apply Hne; now apply Hr.
Qed.

(** A signature of another length is refused on the length test alone. *)
Lemma wrong_length_refused (log : list event) :
  length (Hex.decode sig) <> 32%nat ->
  Signed.signatureValidation config req log = (Ok (Some invalid_signature), log).
Proof.
  intros Hlen. rewrite signatureValidation_checked.
  apply Nat.eqb_neq in Hlen; now rewrite Hlen.
Qed.

End Validation.

(** ** Reading JavaScript values *)

Lemma get_object_total (props : list (jsstring * value)) (k : jsstring) :
  exists v, JS.get (VObj props) k = Ok v.
Proof. simpl; destruct (JS.own k props); eauto. Qed.

Lemma get_total (v : value) (k : jsstring) :
  JS.nullish v = false -> exists x, JS.get v k = Ok x.
Proof.
  destruct v; simpl; try discriminate; intros _; eauto.
  - destruct (jsstring_eqb k (lit "length")); eauto.
  - destruct (jsstring_eqb k (lit "length")); eauto.
  - destruct (JS.own k props); eauto.
Qed.

Lemma truthy_not_nullish (v : value) : JS.truthy v = true -> JS.nullish v = false.
Proof. destruct v; simpl; congruence. Qed.

Lemma get_known (w : World) (req : Request) (config : value) :
  known w req config -> JS.get (VObj (projectConfigs w)) (projectName req) = Ok config.
Proof. intros [H _]; simpl; now rewrite H. Qed.

(** A field of the payload validation that the object lacks reads as
    [undefined]: none of the three names is inherited. *)
Lemma get_missing (k : string) (props : list (jsstring * value)) :
  In k required -> JS.own (lit k) props = None ->
  JS.get (VObj props) (lit k) = Ok VUndefined.
Proof.
  intros Hk Hown; simpl; rewrite Hown.
  destruct Hk as [<-|[<-|[<-|[]]]]; reflexivity.
Qed.

(** ** Payload validation, formatting and delivery *)

(** A payload one of whose three fields reads falsy is answered 400 and
    nothing leaves the handler. *)
Lemma relay_rejects (f : Flavour) (w : World) (config : value) (req : Request)
      (props : list (jsstring * value)) (k : string) (v : value) (log : list event) :
  body req = VObj props -> In k required ->
  JS.get (VObj props) (lit k) = Ok v -> JS.truthy v = false ->
  Push.relay f w config req log = (Ok malformed, log).
Proof.
  intros Hb Hk Hget Hv. unfold Push.relay; step. rewrite Hb.
  destruct (get_object_total props (lit "pusher")) as [p Hp].
  destruct (get_object_total props (lit "repository")) as [r Hr].
  destruct (get_object_total props (lit "commits")) as [c Hc].
  rewrite Hp, Hr, Hc.
  assert (E : negb (JS.truthy p) || negb (JS.truthy r) || negb (JS.truthy c) = true).
  { destruct Hk as [<-|[<-|[<-|[]]]]; rewrite Hget in *.
    - injection Hp as <-; now rewrite Hv.
    - injection Hr as <-; rewrite Hv; apply orb_true_iff; left; apply orb_true_r.
    - injection Hc as <-; rewrite Hv; apply orb_true_r. }
  now rewrite E.
Qed.

(** The [try] block posts at most once; a post carries the message. *)
Lemma send_log (f : Flavour) (w : World) (config : value) (msg : jsstring)
      (log : list event) :
  exists res, Push.send f w config msg log = (Ok res, log)
              \/ exists r, Push.send f w config msg log = (Ok res, log ++ [AxiosPost r])
                           /\ text r = msg /\ parse_mode r = markdown f.
Proof.
  unfold Push.send, try_catch, axios_post, emit; step.
  destruct (JS.get config (lit "botToken")) as [token|e]; [|eauto].
  destruct (JS.toString token) as [token_s|e]; [|eauto].
  destruct (JS.get config (lit "chatId")) as [chat|e]; [|eauto].
  destruct (JS.get config (lit "threadId")) as [thread|e]; [|eauto].
  match goal with |- context [telegram w ?r] => destruct (telegram w r) end;
    eexists; right; eexists; (split; [reflexivity | split; reflexivity]).
Qed.

(** What [relay] adds to the log is at most one post, and the text of that
    post is the formatted body. *)
Lemma relay_log (f : Flavour) (w : World) (config : value) (req : Request)
      (log : list event) :
  snd (Push.relay f w config req log) = log
  \/ exists r, snd (Push.relay f w config req log) = log ++ [AxiosPost r]
               /\ formatted f (body req) = Ok (text r).
Proof.
  unfold Push.relay, formatted, rbind; step.
  destruct (JS.get (body req) (lit "pusher")) as [p|e]; [|now left].
  destruct (JS.get (body req) (lit "repository")) as [r|e]; [|now left].
  destruct (JS.get (body req) (lit "commits")) as [c|e]; [|now left].
  destruct (negb (JS.truthy p) || negb (JS.truthy r) || negb (JS.truthy c)); [now left|].
  destruct (Push.message f p r c) as [msg|e]; [|now left].
  destruct (send_log f w config msg log) as [res [H|[x (H & Ht & _)]]]; rewrite H; cbn [snd].
  - now left.
  - right; exists x; split; [reflexivity | now rewrite Ht].
Qed.

(** Delivery with a configuration whose [botToken] prints: exactly one post;
    200 when it succeeds, 500 with the error when it fails. *)
Lemma send_posts (f : Flavour) (w : World) (config token : value) (token_s msg : jsstring)
      (log : list event) :
  JS.truthy config = true ->
  JS.get config (lit "botToken") = Ok token -> JS.toString token = Ok token_s ->
  exists r,
    url r = TELEGRAM_API_DOMAIN w ++ lit "/bot" ++ token_s ++ lit "/sendMessage"
    /\ JS.get config (lit "chatId") = Ok (chat_id r)
    /\ JS.get config (lit "threadId") = Ok (message_thread_id r)
    /\ text r = msg /\ parse_mode r = markdown f /\ disable_web_page_preview r = true
    /\ Push.send f w config msg log =
       (Ok (delivered w r), log ++ [AxiosPost r]).
Proof.
  intros Hc Ht Hs. apply truthy_not_nullish in Hc.
  destruct (get_total config (lit "chatId") Hc) as [chat Hchat].
  destruct (get_total config (lit "threadId") Hc) as [thread Hthread].
  unfold Push.send, try_catch, axios_post, emit; step.
  rewrite Ht, Hs, Hchat, Hthread.
  exists {| url := TELEGRAM_API_DOMAIN w ++ lit "/bot" ++ token_s ++ lit "/sendMessage";
            chat_id := chat; message_thread_id := thread; text := msg;
            parse_mode := markdown f; disable_web_page_preview := true |}.
  cbn [url chat_id message_thread_id text parse_mode disable_web_page_preview].
  repeat (split; [reflexivity|]). unfold delivered.
  match goal with |- context [telegram w ?r] => destruct (telegram w r) end; reflexivity.
Qed.

Lemma posts_app (l1 l2 : list event) : posts (l1 ++ l2) = posts l1 ++ posts l2.
Proof. unfold posts; now rewrite flat_map_app. Qed.

Lemma comparisons_app (l1 l2 : list event) :
  comparisons (l1 ++ l2) = comparisons l1 ++ comparisons l2.
Proof. unfold comparisons; now rewrite flat_map_app. Qed.

(** ** The two handlers, stage by stage *)

Lemma Plain_known (w : World) (req : Request) (config : value) (log : list event) :
  known w req config ->
  Plain.webhook w req log = Push.relay Plain.flavour w config req log.
Proof.
  intros K. unfold Plain.webhook; step.
  rewrite (get_known w req config K). destruct K as [_ ->]. reflexivity.
Qed.

Lemma Signed_known (w : World) (req : Request) (config : value) (log : list event) :
  known w req config -> header_is (x_github_event req) "ping" = false ->
  Signed.webhook w req log =
  match Signed.signatureValidation config req log with
  | (Ok (Some r), log') => (Ok r, log')
  | (Ok None, log') => Push.relay Signed.flavour w config req log'
  | (Throw e, log') => (Throw e, log')
  end.
Proof.
  intros K P. unfold Signed.webhook; step.
  rewrite (get_known w req config K). destruct K as [_ ->]. rewrite P; cbn [negb].
  destruct (Signed.signatureValidation config req log) as [[[r|]|e] log']; reflexivity.
Qed.

(** What the validation block adds to the log: nothing, and then it does not
    fall through; or one comparison, of the decoded header with the tag, both
    of 32 octets. *)
Lemma signatureValidation_log (config : value) (req : Request) (log : list event) :
  (snd (Signed.signatureValidation config req log) = log
   /\ fst (Signed.signatureValidation config req log) <> Ok None)
  \/ (exists h b,
        x_hub_signature_256 req = Some h
        /\ snd (Signed.signatureValidation config req log)
           = log ++ [TimingSafeEqual (Hex.decode (Signed.slice_from 7 h)) b]
        /\ length (Hex.decode (Signed.slice_from 7 h)) = 32%nat /\ length b = 32%nat).
Proof.
  unfold Signed.signatureValidation; step.
  destruct (JS.get config (lit "webhookSecret")) as [secret|e];
    [|left; split; [reflexivity | discriminate]].
  destruct (JS.truthy secret); cbn [negb]; [|left; split; [reflexivity | discriminate]].
  destruct (x_hub_signature_256 req) as [h|]; [|left; split; [reflexivity | discriminate]].
  destruct (Signed.startsWith "sha256=" h); cbn [negb];
    [|left; split; [reflexivity | discriminate]].
  destruct (rawBody req) as [raw|]; [|left; split; [reflexivity | discriminate]].
  destruct secret; cbn [Signed.hmac_hex];
    try (left; split; [reflexivity | discriminate]).
  rewrite hex_decode_encode, hmac_sha256_length.
  destruct (length (Hex.decode (Signed.slice_from 7 h)) =? 32)%nat eqn:Hlen; cbn [negb];
    [|left; split; [reflexivity | discriminate]].
  apply Nat.eqb_eq in Hlen.
  right. exists h, (Crypto.hmac_sha256 (utf8_encode s) raw).
  split; [reflexivity|]. split; [|split; [assumption | apply hmac_sha256_length]].
  unfold timingSafeEqual, emit; step.
  destruct (Crypto.timingSafeEqual _ _) as [[|]|]; reflexivity.
Qed.

(** Every comparison the signed server makes is between Buffers of one
    length, so [crypto.timingSafeEqual] never raises its [RangeError]. *)
Lemma comparisons_equal_length (w : World) (req : Request) (a b : Buffer) :
  In (a, b) (comparisons (snd (run (Signed.webhook w req)))) -> length a = length b.
Proof.
  unfold run, Signed.webhook; step.
  destruct (JS.get _ _) as [config|e]; [|intros []].
  destruct (JS.truthy config); cbn [negb]; [|intros []].
  destruct (header_is _ _); [intros []|].
  destruct (signatureValidation_log config req []) as [[Hl Hn]|(h & t & _ & Hl & La & Lb)];
    destruct (Signed.signatureValidation config req []) as [[[r|]|e] log'];
    cbn [fst snd app] in *; subst log'.
  - intros [].
  - congruence.
  - intros [].
  - intros [E|[]]; injection E as <- <-; congruence.
  - destruct (relay_log Signed.flavour w config req
                [TimingSafeEqual (Hex.decode (Signed.slice_from 7 h)) t])
      as [->|(r & -> & _)].
    + intros [E|[]]; injection E as <- <-; congruence.
    + rewrite comparisons_app. cbn. intros [E|[]]; injection E as <- <-; congruence.
  - intros [E|[]]; injection E as <- <-; congruence.
Qed.

(** A post of either server carries the formatted body as its text. *)
Lemma Plain_posts_formatted (w : World) (req : Request) (r : AxiosRequest) :
  In r (posts (snd (run (Plain.webhook w req)))) ->
  formatted Plain.flavour (body req) = Ok (text r).
Proof.
  unfold run, Plain.webhook; step.
  destruct (JS.get _ _) as [config|e]; [|intros []].
  destruct (JS.truthy config); cbn [negb]; [|intros []].
  destruct (relay_log Plain.flavour w config req []) as [->|(x & -> & Hf)].
  - intros [].
  - cbn. intros [<-|[]]. exact Hf.
Qed.

Lemma Signed_posts_formatted (w : World) (req : Request) (r : AxiosRequest) :
  In r (posts (snd (run (Signed.webhook w req)))) ->
  formatted Signed.flavour (body req) = Ok (text r).
Proof.
  unfold run, Signed.webhook; step.
  destruct (JS.get _ _) as [config|e]; [|intros []].
  destruct (JS.truthy config); cbn [negb]; [|intros []].
  destruct (header_is _ _); [intros []|].
  destruct (signatureValidation_log config req []) as [[Hl Hn]|(h & t & _ & Hl & _)];
    destruct (Signed.signatureValidation config req []) as [[[x|]|e] log'];
    cbn [fst snd app] in *; subst log'; try (now intros []); try congruence.
  destruct (relay_log Signed.flavour w config req
              [TimingSafeEqual (Hex.decode (Signed.slice_from 7 h)) t])
    as [->|(x & -> & Hf)].
  - intros [].
  - rewrite posts_app. cbn. intros [<-|[]]. exact Hf.
Qed.

(** A request that passed the validation block goes on to [relay], with the
    one comparison in the log. *)
Lemma Signed_accepted (w : World) (req : Request) (config : value) :
  known w req config -> header_is (x_github_event req) "ping" = false ->
  accepted config req ->
  exists a b, run (Signed.webhook w req)
              = Push.relay Signed.flavour w config req [TimingSafeEqual a b].
Proof.
  intros K P A. unfold run. rewrite (Signed_known w req config [] K P).
  unfold accepted, run in A.
  destruct (signatureValidation_log config req []) as [[_ Hn]|(h & t & _ & Hl & _)];
    [contradiction|].
  destruct (Signed.signatureValidation config req []) as [r log'].
  cbn [fst snd app] in *; subst r log'. eauto.
Qed.

(** ** Formatting the commits of the data model *)

Lemma count_files (c : value) (k : jsstring) (x : value) (o : option (list jsstring)) :
  JS.get c k = Ok x -> has_files x o ->
  Push.count c k = Ok (VNum (Z.of_nat (Model.files o))).
Proof.
  intros H Hx. unfold Push.count, rbind. rewrite H.
  destruct o as [l|]; cbn [has_files Model.files] in *.
  - destruct Hx as (items & -> & Hlen).
    unfold JS.get_opt; cbn [JS.nullish JS.get].
    change (jsstring_eqb (lit "length") (lit "length")) with true; cbn iota.
    rewrite Hlen. destruct l; reflexivity.
  - unfold JS.get_opt. now rewrite Hx.
Qed.

Lemma get_not_nullish (v : value) (k : jsstring) (x : value) :
  JS.get v k = Ok x -> JS.nullish v = false.
Proof. destruct v; cbn [JS.get JS.nullish]; congruence. Qed.

Lemma author_name (a : value) (o : option jsstring) :
  has_name a o ->
  (name <- JS.get_opt a (lit "name") ;;
   JS.toString (JS.coalesce name (VStr (lit "unknown"))))%result
  = Ok match o with Some n => n | None => lit "unknown" end.
Proof.
  unfold rbind, JS.get_opt. destruct o as [n|]; cbn [has_name].
  - intros H. rewrite (get_not_nullish _ _ _ H), H. reflexivity.
  - intros [H|(x & H & Hx)].
    + now rewrite H.
    + rewrite (get_not_nullish _ _ _ H), H. unfold JS.coalesce. now rewrite Hx.
Qed.

(** The callback of [commits.map] on a value that represents a commit. *)
Lemma commitLine_represents (v : value) (c : Model.Commit) :
  represents v c -> Push.commitLine v = Ok (Model.line c).
Proof.
  intros (Hi & Hm & Hu & (a & Ha & Hn) & (x1 & H1 & F1) & (x2 & H2 & F2) & (x3 & H3 & F3)).
  unfold Push.commitLine.
  rewrite (count_files _ _ _ _ H1 F1), (count_files _ _ _ _ H2 F2),
    (count_files _ _ _ _ H3 F3).
  cbn [rbind]. rewrite Hm, Hi, Hu, Ha. cbn [rbind JS.toString JS.slice0].
  pose proof (author_name a _ Hn) as E. unfold rbind in E |- *.
  destruct (JS.get_opt a (lit "name")) as [name|e]; [|discriminate].
  rewrite E. reflexivity.
Qed.

(** The encoding of a commit of the data model represents it. *)
Lemma commit_value_represents (c : Model.Commit) : represents (Model.commit_value c) c.
Proof.
  destruct c as [i m u [a|] [ad|] [mo|] [re|]];
    repeat split;
    try (eexists; split; [reflexivity|]; cbn;
         first [ reflexivity
               | now left
               | eexists; split; [reflexivity | apply length_map] ]).
Qed.

Lemma commitLine_line (c : Model.Commit) :
  Push.commitLine (Model.commit_value c) = Ok (Model.line c).
Proof. apply commitLine_represents, commit_value_represents. Qed.

Lemma mapM_commits (cs : list Model.Commit) :
  JS.mapM Push.commitLine (map Model.commit_value cs) = Ok (map Model.line cs).
Proof.
  induction cs as [|c cs IH]; [reflexivity|].
  cbn [map JS.mapM]. unfold rbind. now rewrite commitLine_line, IH.
Qed.

(** A value with a string property is an object. *)
Lemma get_string_truthy (v : value) (k s : jsstring) :
  JS.get v k = Ok (VStr s) -> JS.truthy v = true.
Proof.
  destruct v; cbn [JS.get JS.truthy]; try discriminate; try reflexivity.
  - unfold JS.inherited; destruct (existsb _ _); discriminate.
  - unfold JS.inherited; destruct (existsb _ _); discriminate.
  - destruct (jsstring_eqb k (lit "length")); [discriminate|].
    unfold JS.inherited; destruct (existsb _ _); discriminate.
Qed.

(** [relay] on a payload that passes the validation, with a message that
    formats and a bot token that prints: exactly one post, carrying the
    message. *)
Lemma relay_delivers (f : Flavour) (w : World) (config : value) (req : Request)
      (p r c token : value) (token_s msg : jsstring) (log : list event) :
  JS.truthy config = true ->
  JS.get config (lit "botToken") = Ok token -> JS.toString token = Ok token_s ->
  JS.get (body req) (lit "pusher") = Ok p ->
  JS.get (body req) (lit "repository") = Ok r ->
  JS.get (body req) (lit "commits") = Ok c ->
  JS.truthy p = true -> JS.truthy r = true -> JS.truthy c = true ->
  Push.message f p r c = Ok msg ->
  exists x,
    Push.relay f w config req log = (Ok (delivered w x), log ++ [AxiosPost x])
    /\ text x = msg /\ parse_mode x = markdown f
    /\ url x = TELEGRAM_API_DOMAIN w ++ lit "/bot" ++ token_s ++ lit "/sendMessage".
Proof.
  intros Hc Ht Hs Hp Hr Hcm Tp Tr Tc Hmsg.
  destruct (send_posts f w config token token_s msg log Hc Ht Hs)
    as (x & Hu & _ & _ & Htx & Hpm & _ & Hsend).
  exists x. unfold Push.relay; step.
  rewrite Hp, Hr, Hcm, Tp, Tr, Tc; cbn [negb orb]. rewrite Hmsg.
  repeat split; assumption.
Qed.

(** A project name that is neither a key of the configuration nor a property
    name of [Object.prototype] is answered 404 by both servers, and nothing
    leaves the handler. *)
Lemma unknown_project_404 (w : World) (req : Request) :
  JS.own (projectName req) (projectConfigs w) = None ->
  existsb (jsstring_eqb (projectName req)) JS.object_prototype_names = false ->
  run (Plain.webhook w req) = (Ok not_found, [])
  /\ run (Signed.webhook w req) = (Ok not_found, []).
Proof.
  intros Hown Hproto.
  unfold run, Plain.webhook, Signed.webhook; step. cbn [JS.get].
  unfold JS.inherited. now rewrite Hown, Hproto.
Qed.

(** A signature that does not decode to the tag is answered 401. *)
Lemma signature_refused (w : World) (req : Request) (config : value)
      (secret : jsstring) (sig : string) (raw : Buffer) :
  known w req config ->
  header_is (x_github_event req) "ping" = false ->
  JS.get config (lit "webhookSecret") = Ok (VStr secret) ->
  JS.truthy (VStr secret) = true ->
  x_hub_signature_256 req = Some ("sha256=" ++ sig)%string ->
  rawBody req = Some raw ->
  Hex.decode sig <> expected secret raw ->
  fst (run (Signed.webhook w req)) = Ok invalid_signature.
Proof.
  intros K P Hs Ht Hh Hr Hne.
  assert (Hc : JS.get config (lit "webhookSecret") = Ok (VStr secret) /\ secret <> []).
  { split; [assumption|]. intros ->; discriminate. }
  unfold run. rewrite (Signed_known w req config [] K P).
  pose proof (rejected_unless_decoded config req secret sig raw Hc Hh Hr Hne) as Hrej.
  unfold run in Hrej.
  destruct (Signed.signatureValidation config req []) as [r log'].
  cbn [fst] in Hrej; subst r. reflexivity.
Qed.

(* ------------------------------------------------------------------------ *)
(** * The properties of the specification *)

(** ** C1: what the signature validation accepts *)

(** C1, as the code has it.  For a known project with a secret, a request that
    is not a ping, carries the header [sha256=<sig>] and has a raw body:
    validation succeeds if and only if the octets that [Buffer.from(sig,
    'hex')] decodes from the header value are the HMAC-SHA256 tag of the raw
    body under the secret.  The handler then goes on to the payload
    validation; otherwise it answers 401.  The lower-case hexadecimal digest
    is accepted, and so is any other text that decodes to the same octets. *)
Theorem signature_accepted_iff_decoded_tag
        (w : World) (req : Request) (config : value)
        (secret : jsstring) (sig : string) (raw : Buffer) :
  known w req config ->
  header_is (x_github_event req) "ping" = false ->
  JS.get config (lit "webhookSecret") = Ok (VStr secret) ->
  JS.truthy (VStr secret) = true ->
  x_hub_signature_256 req = Some ("sha256=" ++ sig)%string ->
  rawBody req = Some raw ->
  (accepted config req <-> Hex.decode sig = expected secret raw)
  /\ (sig = Hex.encode (expected secret raw) -> accepted config req)
  /\ (Hex.decode sig = expected secret raw ->
      run (Signed.webhook w req)
      = Push.relay Signed.flavour w config req
          [TimingSafeEqual (expected secret raw) (expected secret raw)])
  /\ (Hex.decode sig <> expected secret raw ->
      fst (run (Signed.webhook w req)) = Ok invalid_signature).
Proof.
  intros K P Hs Ht Hh Hr.
  assert (Hc : JS.get config (lit "webhookSecret") = Ok (VStr secret) /\ secret <> []).
  { split; [assumption|]. intros ->; discriminate. }
  pose proof (accepted_iff_decoded config req secret sig raw Hc Hh Hr) as Hiff.
  split; [exact Hiff|]. split; [|split].
  - intros ->. apply Hiff, hex_decode_encode.
  - intros E. unfold run. rewrite (Signed_known w req config [] K P).
    rewrite (signatureValidation_checked config req secret sig raw Hc Hh Hr), E.
    unfold expected at 1; rewrite hmac_sha256_length; cbn [Nat.eqb].
    destruct (timingSafeEqual_same_length (expected secret raw) (expected secret raw) eq_refl)
      as (r & -> & Hr').
    rewrite (proj2 Hr' eq_refl). reflexivity.
  - intros Hne. now apply (signature_refused w req config secret sig raw).
Qed.

(** The signed request of the samples is accepted. *)
Lemma signature_accepted_iff_decoded_tag_witness :
  accepted (Model.config_value Sample.demo)
           (Sample.request "demo" (Some "push") (Some ("sha256=" ++ Sample.tag)) (VObj []))%string.
Proof.
  refine (proj1 (proj2 (signature_accepted_iff_decoded_tag
            Sample.world
            (Sample.request "demo" (Some "push") (Some ("sha256=" ++ Sample.tag)) (VObj []))%string
            (Model.config_value Sample.demo) (lit "s3cret") Sample.tag (ascii_bytes "{}")
            _ _ _ _ _ _)) _).
  - split; reflexivity.
  - reflexivity.
  - reflexivity.
  - reflexivity.
  - reflexivity.
  - reflexivity.
  - vm_compute; reflexivity.
Defined.

(** C1 as stated fails: the upper-case spelling of the tag is accepted, and it
    is not the hexadecimal digest that [hmac.digest('hex')] returns. *)
Lemma uppercase_signature_accepted :
  known Sample.world
        (Sample.request "demo" (Some "push") (Some ("sha256=" ++ Sample.TAG)) (VObj []))%string
        (Model.config_value Sample.demo)
  /\ accepted (Model.config_value Sample.demo)
              (Sample.request "demo" (Some "push") (Some ("sha256=" ++ Sample.TAG)) (VObj []))%string
  /\ rawBody (Sample.request "demo" (Some "push") (Some ("sha256=" ++ Sample.TAG)) (VObj []))%string
     = Some (ascii_bytes "{}")
  /\ Hex.encode (expected (lit "s3cret") (ascii_bytes "{}")) = Sample.tag
  /\ Sample.TAG <> Hex.encode (expected (lit "s3cret") (ascii_bytes "{}")).
Proof.
  split; [split; reflexivity|].
  split; [vm_compute; reflexivity|].
  split; [vm_compute; reflexivity|].
  split; [vm_compute; reflexivity|].
  vm_compute; discriminate.
Qed.

(** ** C2: the ping branch *)

(** C2, as the code has it.  A request to a known project whose event header
    is ["ping"] is answered 200 "pong" and nothing else happens: no lookup of
    the secret, no comparison, no payload validation, no post; whatever the
    secret, the signature header and the body are. *)
Theorem ping_known_project_pong (w : World) (req : Request) (config : value) :
  known w req config -> x_github_event req = Some "ping"%string ->
  run (Signed.webhook w req) = (Ok pong, []).
Proof.
  intros K P. unfold run, Signed.webhook; step.
  rewrite (get_known w req config K). destruct K as [_ ->]. now rewrite P.
Qed.

(** A ping to the project without a secret, with no body at all. *)
Lemma ping_known_project_pong_witness :
  run (Signed.webhook Sample.world
         {| projectName := lit "open"; x_github_event := Some "ping"%string;
            x_hub_signature_256 := None; rawBody := None; body := VUndefined |})
  = (Ok pong, []).
Proof.
  apply (ping_known_project_pong Sample.world _ (Model.config_value Sample.unsigned)).
  - split; reflexivity.
  - reflexivity.
Defined.

(** C2 as stated fails: a ping for a project that is not configured is
    answered 404 by the signed server, and [src/main.ts] has no ping branch: a
    ping without a push payload is answered 400 there. *)
Lemma ping_not_always_pong :
  run (Signed.webhook Sample.world (Sample.request "nope" (Some "ping") None (VObj [])))%string
  = (Ok not_found, [])
  /\ run (Plain.webhook Sample.world (Sample.request "demo" (Some "ping") None (VObj [])))%string
     = (Ok malformed, []).
Proof. split; reflexivity. Qed.

(** ** C3: a project without a secret *)

(** C3, as the code has it.  For a request that is not a ping, to a known
    project whose configuration has no [webhookSecret] or a falsy one: the
    signed server answers 500 "Webhook secret not configured for this project"
    and does nothing else; [src/main.ts], which has no signature validation,
    goes straight to the payload validation. *)
Theorem unset_secret_is_500 (w : World) (req : Request) (config secret : value) :
  known w req config ->
  header_is (x_github_event req) "ping" = false ->
  JS.get config (lit "webhookSecret") = Ok secret -> JS.truthy secret = false ->
  run (Signed.webhook w req) = (Ok secret_not_configured, [])
  /\ run (Plain.webhook w req) = run (Push.relay Plain.flavour w config req).
Proof.
  intros K P Hs Hf. split.
  - unfold run. rewrite (Signed_known w req config [] K P).
    unfold Signed.signatureValidation; step. now rewrite Hs, Hf.
  - unfold run. now apply Plain_known.
Qed.

Lemma unset_secret_is_500_witness :
  run (Signed.webhook Sample.world (Sample.request "open" (Some "push") None Sample.push))%string
  = (Ok secret_not_configured, []).
Proof.
  refine (proj1 (unset_secret_is_500 Sample.world _ (Model.config_value Sample.unsigned)
                   VUndefined _ _ _ _)).
  - split; reflexivity.
  - reflexivity.
  - reflexivity.
  - reflexivity.
Defined.

(** C3 as stated fails: on the signed server a well-formed push to the project
    without a secret is not relayed; it is answered 500 and no message is
    posted.  On [src/main.ts] the same request is relayed. *)
Lemma unset_secret_not_skipped :
  JS.get (Model.config_value Sample.unsigned) (lit "webhookSecret") = Ok VUndefined
  /\ fst (run (Signed.webhook Sample.world
                 (Sample.request "open" (Some "push") None Sample.push)))%string
     = Ok secret_not_configured
  /\ posts (snd (run (Signed.webhook Sample.world
                        (Sample.request "open" (Some "push") None Sample.push))))%string = []
  /\ fst (run (Plain.webhook Sample.world
                 (Sample.request "open" (Some "push") None Sample.push)))%string = Ok ok.
Proof. repeat split; reflexivity. Qed.

(** ** C5: signatures of another length *)

(** C5.  When the header value after [sha256=] does not decode to 32 octets,
    the handler never calls [crypto.timingSafeEqual] (nothing at all leaves
    the handler), and a request that reaches the validation is answered 401
    "Invalid signature".  Whatever the request, the Buffers that are compared
    have one length. *)
Theorem wrong_length_never_compared (w : World) (req : Request) (sig : string) :
  x_hub_signature_256 req = Some ("sha256=" ++ sig)%string ->
  length (Hex.decode sig) <> 32%nat ->
  snd (run (Signed.webhook w req)) = []
  /\ (forall config secret raw,
        known w req config ->
        header_is (x_github_event req) "ping" = false ->
        JS.get config (lit "webhookSecret") = Ok (VStr secret) ->
        JS.truthy (VStr secret) = true ->
        rawBody req = Some raw ->
        run (Signed.webhook w req) = (Ok invalid_signature, []))
  /\ (forall w' req' a b,
        In (a, b) (comparisons (snd (run (Signed.webhook w' req')))) ->
        length a = length b).
Proof.
  intros Hh Hlen. split; [|split].
  - unfold run, Signed.webhook; step.
    destruct (JS.get _ _) as [config|e]; [|reflexivity].
    destruct (JS.truthy config); cbn [negb]; [|reflexivity].
    destruct (header_is _ _); [reflexivity|].
    destruct (signatureValidation_log config req [])
      as [[Hl Hn]|(h & t & Hh' & _ & La & _)].
    + destruct (Signed.signatureValidation config req []) as [[[r|]|e] log'];
        cbn [fst snd] in *; congruence.
    + exfalso. rewrite Hh in Hh'; injection Hh' as <-.
      change (String "s" (String "h" (String "a" (String "2" (String "5"
                (String "6" (String "=" sig)))))))
        with ("sha256=" ++ sig)%string in La.
      rewrite slice_sha256 in La. contradiction.
  - intros config secret raw K P Hs Ht Hr.
    assert (Hc : JS.get config (lit "webhookSecret") = Ok (VStr secret) /\ secret <> []).
    { split; [assumption|]. intros ->; discriminate. }
    unfold run. rewrite (Signed_known w req config [] K P).
    now rewrite (wrong_length_refused config req secret sig raw Hc Hh Hr [] Hlen).
  - intros w' req' a b. apply comparisons_equal_length.
Qed.

(** A signature of one octet, and one that is no hexadecimal text. *)
Lemma wrong_length_never_compared_witness :
  snd (run (Signed.webhook Sample.world
              (Sample.request "demo" (Some "push") (Some "sha256=00") Sample.push)))%string = [].
Proof.
  refine (proj1 (wrong_length_never_compared Sample.world _ "00"%string _ _)).
  - reflexivity.
  - vm_compute; discriminate.
Defined.

(** ** C4 and C9: payload validation *)

(** [relay] on a request that passed the validation block. *)
Lemma Signed_accepted_rejects (w : World) (req : Request) (config : value)
      (props : list (jsstring * value)) (k : string) (v : value) :
  known w req config -> header_is (x_github_event req) "ping" = false ->
  accepted config req ->
  body req = VObj props -> In k required ->
  JS.get (VObj props) (lit k) = Ok v -> JS.truthy v = false ->
  fst (run (Signed.webhook w req)) = Ok malformed
  /\ posts (snd (run (Signed.webhook w req))) = [].
Proof.
  intros K P A Hb Hk Hget Hv.
  destruct (Signed_accepted w req config K P A) as (a & b & ->).
  rewrite (relay_rejects Signed.flavour w config req props k v _ Hb Hk Hget Hv).
  split; reflexivity.
Qed.

(** C4, as the code has it.  A parsed payload that lacks [pusher],
    [repository] or [commits] is answered 400 once the request reaches the
    payload validation: on [src/main.ts] for every request to a known project,
    whatever its signature header; on the signed server for the requests that
    are not pings and passed the signature validation.  There a request whose
    signature does not match is answered 401 before the payload is looked
    at. *)
Theorem missing_field_is_400 (w : World) (req : Request) (config : value) (k : string) :
  known w req config -> In k required -> missing k (body req) ->
  run (Plain.webhook w req) = (Ok malformed, [])
  /\ (header_is (x_github_event req) "ping" = false -> accepted config req ->
      fst (run (Signed.webhook w req)) = Ok malformed
      /\ posts (snd (run (Signed.webhook w req))) = [])
  /\ (forall secret sig raw,
        header_is (x_github_event req) "ping" = false ->
        JS.get config (lit "webhookSecret") = Ok (VStr secret) ->
        JS.truthy (VStr secret) = true ->
        x_hub_signature_256 req = Some ("sha256=" ++ sig)%string ->
        rawBody req = Some raw ->
        Hex.decode sig <> expected secret raw ->
        fst (run (Signed.webhook w req)) = Ok invalid_signature).
Proof.
  intros K Hk (props & Hb & Hown).
  pose proof (get_missing k props Hk Hown) as Hget.
  split; [|split].
  - unfold run. rewrite (Plain_known w req config [] K).
    now apply (relay_rejects Plain.flavour w config req props k VUndefined).
  - intros P A.
    now apply (Signed_accepted_rejects w req config props k VUndefined).
  - intros secret sig raw P Hs Ht Hh Hr Hne.
    now apply (signature_refused w req config secret sig raw).
Qed.

Lemma missing_field_is_400_witness :
  run (Plain.webhook Sample.world
         (Sample.request "demo" (Some "push") (Some "sha256=00") Sample.no_commits))%string
  = (Ok malformed, []).
Proof.
  refine (proj1 (missing_field_is_400 Sample.world _ (Model.config_value Sample.demo)
                   "commits"%string _ _ _)).
  - split; reflexivity.
  - right; right; left; reflexivity.
  - eexists; split; reflexivity.
Defined.

(** C4 as stated fails: on the signed server the same payload, sent with a
    signature that does not match, is answered 401 and not 400. *)
Lemma missing_field_bad_signature_is_401 :
  missing "commits" Sample.no_commits
  /\ run (Signed.webhook Sample.world
            (Sample.request "demo" (Some "push") (Some "sha256=00") Sample.no_commits))%string
     = (Ok invalid_signature, []).
Proof. split; [eexists; split; reflexivity | vm_compute; reflexivity]. Qed.

(** The falsy values. *)
Lemma falsy_values (v : value) :
  JS.truthy v = false
  <-> v = VUndefined \/ v = VNull \/ v = VBool false \/ v = VNum 0 \/ v = VStr [].
Proof.
  split.
  - destruct v as [ | | b | n | s | items | props | name ]; cbn [JS.truthy];
      try discriminate; auto.
    + destruct b; [discriminate | auto].
    + destruct n; try discriminate; auto 6.
    + destruct s; [auto 6 | discriminate].
  - intros [-> | [-> | [-> | [-> | ->]]]]; reflexivity.
Qed.

(** C9.  The payload validation tests truthiness.  A parsed payload in which
    [pusher], [repository] or [commits] is there but falsy (the empty string,
    0, [false], [null]) is answered 400 by the payload validation, and nothing
    is posted: on [src/main.ts] for every request to a known project, on the
    signed server for every request that is not a ping and passed the
    signature validation. *)
Theorem falsy_field_is_400 (w : World) (req : Request) (config : value) (k : string) :
  known w req config -> In k required -> falsy_field k (body req) ->
  run (Plain.webhook w req) = (Ok malformed, [])
  /\ (header_is (x_github_event req) "ping" = false -> accepted config req ->
      fst (run (Signed.webhook w req)) = Ok malformed
      /\ posts (snd (run (Signed.webhook w req))) = [])
  /\ (JS.truthy (VStr []) = false /\ JS.truthy (VNum 0) = false
      /\ JS.truthy (VBool false) = false /\ JS.truthy VNull = false).
Proof.
  intros K Hk (props & v & Hb & Hown & Hv).
  assert (Hget : JS.get (VObj props) (lit k) = Ok v) by (cbn [JS.get]; now rewrite Hown).
  split; [|split].
  - unfold run. rewrite (Plain_known w req config [] K).
    now apply (relay_rejects Plain.flavour w config req props k v).
  - intros P A. now apply (Signed_accepted_rejects w req config props k v).
  - repeat split; reflexivity.
Qed.

(** The payload whose [pusher] is 0, sent to the signed server with a valid
    signature. *)
Lemma falsy_field_is_400_witness :
  fst (run (Signed.webhook Sample.world
              (Sample.request "demo" (Some "push")
                              (Some (Sample.sign "s3cret" Sample.zero_pusher))
                              Sample.zero_pusher)))%string
  = Ok malformed.
Proof.
  refine (proj1 (proj1 (proj2 (falsy_field_is_400 Sample.world _
                   (Model.config_value Sample.demo) "pusher"%string _ _ _)) _ _)).
  - split; reflexivity.
  - left; reflexivity.
  - eexists; exists (VNum 0). split; [reflexivity | split; reflexivity].
  - reflexivity.
  - vm_compute; reflexivity.
Defined.

(** ** C6: projects that are not configured *)

(** C6 at the project name [constructor].  It is not a key of the loaded
    configuration, yet [projectConfigs['constructor']] is the function every
    object inherits from [Object.prototype], which is truthy: [src/main.ts]
    does not answer 404, it posts the message to the bot [undefined]; the
    signed server answers a ping with "pong" and a push with 500. *)
Theorem inherited_project_is_not_404 :
  JS.own (lit "constructor") (projectConfigs Sample.offline) = None
  /\ run (Plain.webhook Sample.offline
            (Sample.request "constructor" (Some "push") None Sample.empty_push))%string
     = (Ok (delivery_failed "ECONNREFUSED"),
        [AxiosPost
           {| url := lit "http://localhost:8081/botundefined/sendMessage";
              chat_id := VUndefined;
              message_thread_id := VUndefined;
              text := header_line Plain.flavour (lit "bob") (lit "repo") (lit "https://x")
                      ++ [10%N];
              parse_mode := "Markdown";
              disable_web_page_preview := true |}])
  /\ run (Signed.webhook Sample.offline
            (Sample.request "constructor" (Some "ping") None (VObj [])))%string
     = (Ok pong, [])
  /\ run (Signed.webhook Sample.offline
            (Sample.request "constructor" (Some "push") None Sample.empty_push))%string
     = (Ok secret_not_configured, []).
Proof. repeat split; vm_compute; reflexivity. Qed.

(** ** C7: the line of a commit *)

(** C7.  For every commit of the data model the formatter emits the line
    [- <message> ([<first 7 characters of id>](<url>)) by <author name or
    "unknown"> (added: <n>, modified: <n>, removed: <n>)], with the count 0
    for a list that is absent; the commits of a push give one such line each,
    joined by line feeds; and the commit of the specification renders as
    written there.  (The message is copied as it is: a message of several
    lines gives an entry of several lines.) *)
Theorem commit_line_form :
  (forall (v : value) (c : Model.Commit),
      represents v c -> Push.commitLine v = Ok (Model.line c))
  /\ (forall c : Model.Commit, Push.commitLine (Model.commit_value c) = Ok (Model.line c))
  /\ (forall cs : list Model.Commit,
        Push.commitMessages (VArr (map Model.commit_value cs))
        = Ok (JS.join [10%N] (map Model.line cs)))
  /\ Push.commitLine (Model.commit_value Sample.fix_bug)
     = Ok (lit "- fix bug ([abcdef1](https://x/commit/abcdef1234567)) by alice (added: 1, modified: 0, removed: 0)")
  /\ Push.commitLine (Model.commit_value Sample.bare)
     = Ok (lit "- wip ([0123456](https://x/c/0123456789)) by unknown (added: 0, modified: 0, removed: 0)").
Proof.
  split; [exact commitLine_represents|].
  split; [exact commitLine_line|]. split; [|split; vm_compute; reflexivity].
  intros cs. unfold Push.commitMessages, rbind; cbn [JS.array_map].
  now rewrite mapM_commits.
Qed.

(** The commit of the specification as GitHub sends it, with further
    properties. *)
Lemma commit_line_form_witness :
  Push.commitLine Sample.fix_bug_wire = Ok (Model.line Sample.fix_bug).
Proof.
  apply (proj1 commit_line_form Sample.fix_bug_wire Sample.fix_bug).
  repeat split;
    try (eexists; split; [reflexivity|]; cbn;
         first [ reflexivity | eexists; split; reflexivity ]).
Defined.

(** ** C8: the message is a function of the push event *)

(** C8.  The text either server posts is determined by the parsed body alone:
    it is [formatted] of the body, whatever the configuration, the headers,
    the environment and the answers of the network are; so two requests with
    the same body, to any two processes, post the same text. *)
Theorem message_determined_by_body
        (w1 w2 : World) (req1 req2 : Request) (r1 r2 : AxiosRequest) :
  body req1 = body req2 ->
  (In r1 (posts (snd (run (Plain.webhook w1 req1)))) ->
   In r2 (posts (snd (run (Plain.webhook w2 req2)))) ->
   formatted Plain.flavour (body req1) = Ok (text r1) /\ text r1 = text r2)
  /\ (In r1 (posts (snd (run (Signed.webhook w1 req1)))) ->
      In r2 (posts (snd (run (Signed.webhook w2 req2)))) ->
      formatted Signed.flavour (body req1) = Ok (text r1) /\ text r1 = text r2).
Proof.
  intros Hb. split; intros H1 H2.
  - apply Plain_posts_formatted in H1, H2. rewrite <- Hb in H2.
    split; [assumption | congruence].
  - apply Signed_posts_formatted in H1, H2. rewrite <- Hb in H2.
    split; [assumption | congruence].
Qed.

(** One push sent to two projects of two processes, behind different API
    domains, one of which cannot reach Telegram. *)
Lemma message_determined_by_body_witness :
  text (Sample.post (lit "https://api.telegram.org") VUndefined)
  = text (Sample.post (lit "http://localhost:8081") (VNum 7)).
Proof.
  refine (proj2 (proj1 (message_determined_by_body
                          Sample.world Sample.offline
                          (Sample.request "demo" (Some "push") None Sample.push)%string
                          (Sample.request "open" None (Some "sha256=00") Sample.push)%string
                          (Sample.post (lit "https://api.telegram.org") VUndefined)
                          (Sample.post (lit "http://localhost:8081") (VNum 7))
                          _) _ _)).
  - reflexivity.
  - vm_compute; left; reflexivity.
  - vm_compute; left; reflexivity.
Defined.

(** ** C10: a push without commits *)

(** C10.  For a request to a known project whose bot token is a string, with
    a payload whose pusher and repository carry their names and whose
    [commits] is the empty array: the validation passes and the message is
    posted exactly once; its text is the header line followed by the
    separator, and no commit line.  The caller gets 200 "OK", or 500 when the
    post fails.  On the signed server this holds for the requests that are not
    pings and passed the signature validation. *)
Theorem empty_commits_header_only
        (w : World) (req : Request) (config pusher repository : value)
        (token pusher_s repo_s repo_url : jsstring) :
  known w req config ->
  JS.get config (lit "botToken") = Ok (VStr token) ->
  JS.get (body req) (lit "pusher") = Ok pusher ->
  JS.get pusher (lit "name") = Ok (VStr pusher_s) ->
  JS.get (body req) (lit "repository") = Ok repository ->
  JS.get repository (lit "name") = Ok (VStr repo_s) ->
  JS.get repository (lit "html_url") = Ok (VStr repo_url) ->
  JS.get (body req) (lit "commits") = Ok (VArr []) ->
  (exists r,
      run (Plain.webhook w req) = (Ok (delivered w r), [AxiosPost r])
      /\ text r = header_line Plain.flavour pusher_s repo_s repo_url
                  ++ separator Plain.flavour)
  /\ (header_is (x_github_event req) "ping" = false -> accepted config req ->
      exists r,
        posts (snd (run (Signed.webhook w req))) = [r]
        /\ fst (run (Signed.webhook w req)) = Ok (delivered w r)
        /\ text r = header_line Signed.flavour pusher_s repo_s repo_url
                    ++ separator Signed.flavour).
Proof.
  intros K Ht Hp Hpn Hr Hrn Hru Hc.
  assert (Hmsg : forall f, Push.message f pusher repository (VArr [])
                           = Ok (header_line f pusher_s repo_s repo_url ++ separator f)).
  { intros f. unfold Push.message, Push.commitMessages, rbind; cbn [JS.array_map JS.mapM JS.join].
    rewrite Hpn, Hrn, Hru; cbn [JS.toString]. unfold header_line.
    now rewrite app_nil_r, <- !app_assoc. }
  pose proof (get_string_truthy _ _ _ Hpn) as Tp.
  pose proof (get_string_truthy _ _ _ Hrn) as Tr.
  destruct K as [Hown Tc]. pose proof (conj Hown Tc) as K.
  split.
  - destruct (relay_delivers Plain.flavour w config req pusher repository (VArr [])
                (VStr token) token _ [] Tc Ht eq_refl Hp Hr Hc Tp Tr eq_refl (Hmsg _))
      as (x & Hx & Htx & _).
    exists x. unfold run. rewrite (Plain_known w req config [] K). split; assumption.
  - intros P A. destruct (Signed_accepted w req config K P A) as (a & b & ->).
    destruct (relay_delivers Signed.flavour w config req pusher repository (VArr [])
                (VStr token) token _ [TimingSafeEqual a b] Tc Ht eq_refl Hp Hr Hc Tp Tr
                eq_refl (Hmsg _))
      as (x & Hx & Htx & _).
    exists x. rewrite Hx. repeat split; assumption.
Qed.

Lemma empty_commits_header_only_witness :
  exists r,
    run (Plain.webhook Sample.world
           (Sample.request "open" (Some "push") None Sample.empty_push))%string
    = (Ok (delivered Sample.world r), [AxiosPost r])
    /\ text r = header_line Plain.flavour (lit "bob") (lit "repo") (lit "https://x")
                ++ separator Plain.flavour.
Proof.
  refine (proj1 (empty_commits_header_only Sample.world _
                   (Model.config_value Sample.unsigned)
                   (VObj [(lit "name", VStr (lit "bob"))])
                   (VObj [(lit "name", VStr (lit "repo"));
                          (lit "html_url", VStr (lit "https://x"))])
                   (lit "TOKEN") (lit "bob") (lit "repo") (lit "https://x")
                   _ _ _ _ _ _ _ _)).
  - split; reflexivity.
  - reflexivity.
  - reflexivity.
  - reflexivity.
  - reflexivity.
  - reflexivity.
  - reflexivity.
  - reflexivity.
Defined.


(* ------------------------------------------------------------------------ *)
(** * Further properties of the handlers *)

(** ** The outcomes of each stage *)

Lemma send_cases (f : Flavour) (w : World) (config : value) (msg : jsstring)
      (log : list event) :
  (exists e, Push.send f w config msg log = (Ok (send_failed e), log))
  \/ exists r,
       Push.send f w config msg log = (Ok (delivered w r), log ++ [AxiosPost r])
       /\ text r = msg
       /\ JS.get config (lit "chatId") = Ok (chat_id r)
       /\ JS.get config (lit "threadId") = Ok (message_thread_id r)
       /\ (exists token token_s,
             JS.get config (lit "botToken") = Ok token
             /\ JS.toString token = Ok token_s
             /\ url r = TELEGRAM_API_DOMAIN w ++ lit "/bot" ++ token_s ++ lit "/sendMessage")
       /\ parse_mode r = markdown f
       /\ disable_web_page_preview r = true.
Proof.
  unfold Push.send, try_catch, axios_post, emit; step.
  destruct (JS.get config (lit "botToken")) as [token|e] eqn:Htoken;
    [|left; eexists; reflexivity].
  destruct (JS.toString token) as [token_s|e] eqn:Hprint; [|left; eexists; reflexivity].
  destruct (JS.get config (lit "chatId")) as [chat|e]; [|left; eexists; reflexivity].
  destruct (JS.get config (lit "threadId")) as [thread|e]; [|left; eexists; reflexivity].
  right.
  exists {| url := TELEGRAM_API_DOMAIN w ++ lit "/bot" ++ token_s ++ lit "/sendMessage";
            chat_id := chat; message_thread_id := thread; text := msg;
            parse_mode := markdown f; disable_web_page_preview := true |}.
  cbn [url chat_id message_thread_id text parse_mode disable_web_page_preview].
  split; [|repeat split; eauto].
  unfold delivered.
  match goal with |- context [telegram w ?r] => destruct (telegram w r) end; reflexivity.
Qed.

Lemma relay_cases (f : Flavour) (w : World) (config : value) (req : Request)
      (log : list event) :
  relayed f w config req log (Push.relay f w config req log).
Proof.
  unfold relayed, Push.relay, formatted, rbind; step.
  destruct (JS.get (body req) (lit "pusher")) as [p|e]; [|left; eexists; reflexivity].
  destruct (JS.get (body req) (lit "repository")) as [r|e]; [|left; eexists; reflexivity].
  destruct (JS.get (body req) (lit "commits")) as [c|e]; [|left; eexists; reflexivity].
  destruct (negb (JS.truthy p) || negb (JS.truthy r) || negb (JS.truthy c));
    [right; left; reflexivity|].
  destruct (Push.message f p r c) as [msg|e]; [|left; eexists; reflexivity].
  destruct (send_cases f w config msg log) as [[e H]|(x & H & Ht & Hrest)]; rewrite H.
  - right; right; left; eexists; reflexivity.
  - right; right; right. exists x. split; [reflexivity|]. split; [now rewrite Ht | exact Hrest].
Qed.

Lemma get_configured (w : World) (req : Request) :
  JS.get (VObj (projectConfigs w)) (projectName req) = Ok (configured w req).
Proof. unfold configured; cbn [JS.get]. destruct (JS.own _ _); reflexivity. Qed.

Lemma Plain_cases (w : World) (req : Request) :
  (JS.truthy (configured w req) = false /\ run (Plain.webhook w req) = (Ok not_found, []))
  \/ (JS.truthy (configured w req) = true
      /\ relayed Plain.flavour w (configured w req) req [] (run (Plain.webhook w req))).
Proof.
  unfold run, Plain.webhook; step. rewrite get_configured.
  destruct (JS.truthy (configured w req)); cbn [negb].
  - right. split; [reflexivity | apply relay_cases].
  - left. split; reflexivity.
Qed.

Lemma startsWith_inv (h : string) :
  Signed.startsWith "sha256=" h = true -> h = ("sha256=" ++ Signed.slice_from 7 h)%string.
Proof.
  unfold Signed.startsWith. intros H.
  do 7 (destruct h as [|? h]; [discriminate|];
        cbn [String.prefix] in H;
        match type of H with
        | (if ?d then _ else _) = true => destruct d; [subst|discriminate]
        end).
  change (String "s" (String "h" (String "a" (String "2" (String "5"
            (String "6" (String "=" h)))))))
    with ("sha256=" ++ h)%string.
  now rewrite slice_sha256.
Qed.

(** The validation block either falls through, after one comparison, for a
    request that is authentic, or it does not fall through and leaves the
    posts of the log as they are. *)
Lemma validation_cases (config : value) (req : Request) (log : list event) :
  (exists a b,
      Signed.signatureValidation config req log = (Ok None, log ++ [TimingSafeEqual a b])
      /\ authentic config req)
  \/ (posts (snd (Signed.signatureValidation config req log)) = posts log
      /\ ((exists e, fst (Signed.signatureValidation config req log) = Throw e)
          \/ exists r,
               fst (Signed.signatureValidation config req log) = Ok (Some r)
               /\ (r = secret_not_configured \/ r = missing_signature
                   \/ r = missing_raw_body \/ r = invalid_signature))).
Proof.
  unfold Signed.signatureValidation; step.
  destruct (JS.get config (lit "webhookSecret")) as [secret|e] eqn:Hs;
    [|right; split; [reflexivity | left; eexists; reflexivity]].
  destruct (JS.truthy secret) eqn:Ht; cbn [negb];
    [|right; split; [reflexivity | right; eexists; split; [reflexivity | which]]].
  destruct (x_hub_signature_256 req) as [h|] eqn:Hh;
    [|right; split; [reflexivity | right; eexists; split; [reflexivity | which]]].
  destruct (Signed.startsWith "sha256=" h) eqn:Hp; cbn [negb];
    [|right; split; [reflexivity | right; eexists; split; [reflexivity | which]]].
  destruct (rawBody req) as [raw|] eqn:Hr;
    [|right; split; [reflexivity | right; eexists; split; [reflexivity | which]]].
  destruct secret as [ | | b | n | s | items | props | name ]; cbn [Signed.hmac_hex];
    try (right; split; [reflexivity | left; eexists; reflexivity]).
  rewrite hex_decode_encode, hmac_sha256_length.
  destruct (length (Hex.decode (Signed.slice_from 7 h)) =? 32)%nat eqn:Hlen; cbn [negb];
    [|right; split; [reflexivity | right; eexists; split; [reflexivity | which]]].
  apply Nat.eqb_eq in Hlen.
  unfold timingSafeEqual, emit; step.
  destruct (timingSafeEqual_same_length (Hex.decode (Signed.slice_from 7 h))
              (Crypto.hmac_sha256 (utf8_encode s) raw)) as (r & -> & Hr').
  { now rewrite Hlen, hmac_sha256_length. }
  destruct r.
  - left. do 2 eexists. split; [reflexivity|].
    exists s, (Signed.slice_from 7 h), raw.
    split; [exact Hs|]. split; [intros ->; discriminate|].
    split; [rewrite Hh; f_equal; now apply startsWith_inv|].
    split; [exact Hr|]. now apply Hr'.
  - right. cbn [fst snd negb]. split.
    + rewrite posts_app. cbn. apply app_nil_r.
    + right; eexists; split; [reflexivity | which].
Qed.

Lemma Signed_cases (w : World) (req : Request) :
  (JS.truthy (configured w req) = false /\ run (Signed.webhook w req) = (Ok not_found, []))
  \/ (JS.truthy (configured w req) = true
      /\ header_is (x_github_event req) "ping" = true
      /\ run (Signed.webhook w req) = (Ok pong, []))
  \/ (JS.truthy (configured w req) = true
      /\ header_is (x_github_event req) "ping" = false
      /\ posts (snd (run (Signed.webhook w req))) = []
      /\ ((exists e, fst (run (Signed.webhook w req)) = Throw e)
          \/ exists r,
               fst (run (Signed.webhook w req)) = Ok r
               /\ (r = secret_not_configured \/ r = missing_signature
                   \/ r = missing_raw_body \/ r = invalid_signature)))
  \/ (JS.truthy (configured w req) = true
      /\ header_is (x_github_event req) "ping" = false
      /\ authentic (configured w req) req
      /\ exists a b,
           relayed Signed.flavour w (configured w req) req [TimingSafeEqual a b]
                   (run (Signed.webhook w req))).
Proof.
  unfold run, Signed.webhook; step. rewrite get_configured.
  destruct (JS.truthy (configured w req)); cbn [negb]; [|left; split; reflexivity].
  destruct (header_is (x_github_event req) "ping");
    [right; left; repeat split; reflexivity|].
  right; right.
  destruct (validation_cases (configured w req) req [])
    as [(a & b & H & Ha)|(Hp & Hres)].
  - right. rewrite H. cbn [app].
    repeat split; try assumption. exists a, b. apply relay_cases.
  - left. split; [reflexivity|]. split; [reflexivity|].
    destruct (Signed.signatureValidation (configured w req) req []) as [[[r|]|e] log'];
      cbn [fst snd] in *.
    + split; [exact Hp|]. destruct Hres as [[e He]|(x & Hx & Hr)]; [discriminate|].
      injection Hx as <-. right; eauto.
    + destruct Hres as [[e He]|(x & Hx & _)]; discriminate.
    + split; [exact Hp|]. left; eauto.
Qed.

Lemma relayed_shape (f : Flavour) (w : World) (config : value) (req : Request)
      (log : list event) (out : result Response * list event) :
  relayed f w config req log out ->
  (posts (snd out) = posts log /\ fst out <> Ok ok /\ fst out <> Ok not_found)
  \/ exists r,
       posts (snd out) = posts log ++ [r]
       /\ fst out = Ok (delivered w r)
       /\ formatted f (body req) = Ok (text r).
Proof.
  intros [[e ->]|[->|[[e ->]|(r & -> & Hf & _)]]]; cbn [fst snd].
  - left; repeat split; discriminate.
  - left; repeat split; discriminate.
  - left; repeat split; discriminate.
  - right. exists r. rewrite posts_app. repeat split; assumption.
Qed.

Lemma delivered_not_found (w : World) (r : AxiosRequest) : delivered w r <> not_found.
Proof. unfold delivered; destruct (telegram w r); discriminate. Qed.

Lemma delivered_ok (w : World) (r : AxiosRequest) :
  delivered w r = ok -> telegram w r = None.
Proof. unfold delivered; destruct (telegram w r); [discriminate | reflexivity]. Qed.

(** ** Authentication of what the signed server relays *)

(** X1.  The signed server posts to Telegram only for an authentic request:
    the project has a truthy configuration with a string secret that is not
    empty, the request is not a ping, it carries a header [sha256=<sig>] and
    a raw body, and [sig] decodes to the HMAC-SHA256 tag of the raw body under
    the secret. *)
Theorem signed_posts_are_authentic (w : World) (req : Request) (r : AxiosRequest) :
  In r (posts (snd (run (Signed.webhook w req)))) ->
  JS.truthy (configured w req) = true
  /\ header_is (x_github_event req) "ping" = false
  /\ authentic (configured w req) req.
Proof.
  destruct (Signed_cases w req)
    as [[_ ->]|[(_ & _ & ->)|[(_ & _ & -> & _)|(Ht & Hp & Ha & _)]]];
    try (intros []).
  intros _. repeat split; assumption.
Qed.

Lemma signed_posts_are_authentic_witness :
  authentic (configured Sample.world Demo.signed_push) Demo.signed_push.
Proof.
  refine (proj2 (proj2 (signed_posts_are_authentic Sample.world Demo.signed_push
                          (notification Signed.flavour Sample.world Sample.demo Demo.event)
                          _))).
  vm_compute; left; reflexivity.
Defined.

(** ** Delivery *)

(** X2.  Either server calls Telegram at most once for a request, whatever
    the request and whatever the answer of the network. *)
Theorem at_most_one_post (w : World) (req : Request) :
  length (posts (snd (run (Plain.webhook w req)))) <= 1
  /\ length (posts (snd (run (Signed.webhook w req)))) <= 1.
Proof.
  split.
  - destruct (Plain_cases w req) as [[_ ->]|[_ H]]; [cbn; lia|].
    apply relayed_shape in H as [(-> & _) | (r & -> & _)]; cbn; lia.
  - destruct (Signed_cases w req)
      as [[_ ->]|[(_ & _ & ->)|[(_ & _ & -> & _)|(_ & _ & _ & a & b & H)]]];
      try (cbn; lia).
    apply relayed_shape in H as [(-> & _) | (r & -> & _)]; cbn; lia.
Qed.

(** X3.  The caller is told 200 "OK" only when the message was posted, once,
    and the post succeeded; the text posted is the formatted body. *)
Theorem ok_means_delivered (w : World) (req : Request) :
  (fst (run (Plain.webhook w req)) = Ok ok ->
   exists r, posts (snd (run (Plain.webhook w req))) = [r]
             /\ telegram w r = None
             /\ formatted Plain.flavour (body req) = Ok (text r))
  /\ (fst (run (Signed.webhook w req)) = Ok ok ->
      exists r, posts (snd (run (Signed.webhook w req))) = [r]
                /\ telegram w r = None
                /\ formatted Signed.flavour (body req) = Ok (text r)).
Proof.
  split.
  - destruct (Plain_cases w req) as [[_ ->]|[_ H]]; [discriminate|].
    apply relayed_shape in H as [(_ & Hn & _)|(r & -> & -> & Hf)]; [contradiction|].
    intros E; injection E as E. exists r. repeat split; [now apply delivered_ok | exact Hf].
  - destruct (Signed_cases w req)
      as [[_ ->]|[(_ & _ & ->)|[(_ & _ & _ & Hres)|(_ & _ & _ & a & b & H)]]];
      try discriminate.
    + destruct Hres as [[e ->]|(x & -> & [-> | [-> | [-> | ->]]])]; discriminate.
    + apply relayed_shape in H as [(_ & Hn & _)|(r & -> & -> & Hf)]; [contradiction|].
      intros E; injection E as E. exists r.
      repeat split; [now apply delivered_ok | exact Hf].
Qed.

Lemma ok_means_delivered_witness :
  exists r, posts (snd (run (Signed.webhook Sample.world Demo.signed_push))) = [r]
            /\ telegram Sample.world r = None
            /\ formatted Signed.flavour (body Demo.signed_push) = Ok (text r).
Proof.
  apply (proj2 (ok_means_delivered Sample.world Demo.signed_push)).
  vm_compute; reflexivity.
Defined.

(** X4.  When a post is made, the answer reports how it went: 200 "OK" if the
    post succeeded, 500 with the error of the post if it failed. *)
Theorem post_outcome_is_reported (w : World) (req : Request) (r : AxiosRequest) :
  (In r (posts (snd (run (Plain.webhook w req)))) ->
   fst (run (Plain.webhook w req)) = Ok (delivered w r))
  /\ (In r (posts (snd (run (Signed.webhook w req)))) ->
      fst (run (Signed.webhook w req)) = Ok (delivered w r)).
Proof.
  split.
  - destruct (Plain_cases w req) as [[_ ->]|[_ H]]; [intros []|].
    apply relayed_shape in H as [(-> & _)|(x & -> & -> & _)]; [intros []|].
    cbn. intros [->|[]]. reflexivity.
  - destruct (Signed_cases w req)
      as [[_ ->]|[(_ & _ & ->)|[(_ & _ & -> & _)|(_ & _ & _ & a & b & H)]]];
      try (intros []).
    apply relayed_shape in H as [(-> & _)|(x & -> & -> & _)]; [intros []|].
    cbn. intros [->|[]]. reflexivity.
Qed.

Lemma post_outcome_is_reported_witness :
  fst (run (Plain.webhook Sample.offline (Demo.push_to "open")))
  = Ok (delivery_failed "ECONNREFUSED").
Proof.
  refine (proj1 (post_outcome_is_reported Sample.offline (Demo.push_to "open")
                   (notification Plain.flavour Sample.offline Sample.unsigned Demo.event))
                _).
  vm_compute; left; reflexivity.
Defined.

(** ** The project lookup *)

(** X5.  Either server answers 404 "Project config not found" exactly when
    [projectConfigs[projectName]] is falsy: for a name that is neither a key
    nor inherited from [Object.prototype], and also for a key whose value is
    [null], [false], 0 or the empty string. *)
Theorem not_found_iff_falsy (w : World) (req : Request) :
  (fst (run (Plain.webhook w req)) = Ok not_found <-> JS.truthy (configured w req) = false)
  /\ (fst (run (Signed.webhook w req)) = Ok not_found
      <-> JS.truthy (configured w req) = false).
Proof.
  split.
  - destruct (Plain_cases w req) as [[Hf ->]|[Ht H]].
    + split; auto.
    + rewrite Ht. split; [|discriminate].
      apply relayed_shape in H as [(_ & _ & Hn)|(r & _ & -> & _)]; [contradiction|].
      intros E; injection E as E. now apply delivered_not_found in E.
  - destruct (Signed_cases w req)
      as [[Hf ->]|[(Ht & _ & ->)|[(Ht & _ & _ & Hres)|(Ht & _ & _ & a & b & H)]]].
    + split; auto.
    + rewrite Ht. split; discriminate.
    + rewrite Ht. split; [|discriminate].
      destruct Hres as [[e ->]|(x & -> & [-> | [-> | [-> | ->]]])]; discriminate.
    + rewrite Ht. split; [|discriminate].
      apply relayed_shape in H as [(_ & _ & Hn)|(r & _ & -> & _)]; [contradiction|].
      intros E; injection E as E. now apply delivered_not_found in E.
Qed.

(** ** The stages of the signed server, for any truthy configuration *)

Lemma Signed_configured (w : World) (req : Request) (log : list event) :
  JS.truthy (configured w req) = true ->
  header_is (x_github_event req) "ping" = false ->
  Signed.webhook w req log =
  match Signed.signatureValidation (configured w req) req log with
  | (Ok (Some r), log') => (Ok r, log')
  | (Ok None, log') => Push.relay Signed.flavour w (configured w req) req log'
  | (Throw e, log') => (Throw e, log')
  end.
Proof.
  intros Ht P. unfold Signed.webhook; step.
  rewrite get_configured, Ht, P; cbn [negb].
  destruct (Signed.signatureValidation (configured w req) req log) as [[[r|]|e] log'];
    reflexivity.
Qed.

Lemma Signed_accepted_configured (w : World) (req : Request) :
  JS.truthy (configured w req) = true ->
  header_is (x_github_event req) "ping" = false ->
  accepted (configured w req) req ->
  exists a b, run (Signed.webhook w req)
              = Push.relay Signed.flavour w (configured w req) req [TimingSafeEqual a b].
Proof.
  intros Ht P A. unfold run. rewrite (Signed_configured w req [] Ht P).
  unfold accepted, run in A.
  destruct (validation_cases (configured w req) req [])
    as [(a & b & H & _)|(_ & [[e He]|(r & Hr & _)])].
  - rewrite H. cbn [app]. eauto.
  - rewrite He in A; discriminate.
  - rewrite Hr in A; discriminate.
Qed.

Lemma Plain_configured (w : World) (req : Request) (log : list event) :
  JS.truthy (configured w req) = true ->
  Plain.webhook w req log = Push.relay Plain.flavour w (configured w req) req log.
Proof.
  intros Ht. unfold Plain.webhook; step. now rewrite get_configured, Ht.
Qed.

(** ** The early answers of the signature validation *)

(** X6.  On the signed server, a request that is not a ping, to a project
    with a secret, is answered 401 "Missing or invalid signature" when it has
    no [x-hub-signature-256] header or one that does not start with
    [sha256=]; nothing is compared and nothing is posted. *)
Theorem missing_signature_is_401 (w : World) (req : Request) (secret : value) :
  JS.truthy (configured w req) = true ->
  header_is (x_github_event req) "ping" = false ->
  JS.get (configured w req) (lit "webhookSecret") = Ok secret ->
  JS.truthy secret = true ->
  (x_hub_signature_256 req = None
   \/ exists h, x_hub_signature_256 req = Some h
                /\ Signed.startsWith "sha256=" h = false) ->
  run (Signed.webhook w req) = (Ok missing_signature, []).
Proof.
  intros Ht P Hs Hts Hh. unfold run. rewrite (Signed_configured w req [] Ht P).
  unfold Signed.signatureValidation; step. rewrite Hs, Hts; cbn [negb].
  destruct Hh as [->|(h & -> & ->)]; reflexivity.
Qed.

(** The push of the samples with a SHA-1 signature header. *)
Lemma missing_signature_is_401_witness :
  run (Signed.webhook Sample.world
         (Sample.request "demo" (Some "push") (Some "sha1=adbde1ce40") Sample.push))%string
  = (Ok missing_signature, []).
Proof.
  refine (missing_signature_is_401 Sample.world _ (VStr (lit "s3cret")) _ _ _ _ _).
  - reflexivity.
  - reflexivity.
  - reflexivity.
  - reflexivity.
  - right. eexists. split; reflexivity.
Defined.

(** X7.  [rawBodySaver] keeps no empty body, so on the signed server a
    request without body octets cannot be authenticated: whatever follows
    [sha256=] in its header, even the tag of the empty message, the answer is
    400 "Missing raw body for signature validation". *)
Theorem empty_body_is_400 (w : World) (req : Request) (secret : value) (sig : string) :
  JS.truthy (configured w req) = true ->
  header_is (x_github_event req) "ping" = false ->
  JS.get (configured w req) (lit "webhookSecret") = Ok secret ->
  JS.truthy secret = true ->
  x_hub_signature_256 req = Some ("sha256=" ++ sig)%string ->
  rawBody req = rawBodySaver [] ->
  run (Signed.webhook w req) = (Ok missing_raw_body, [])
  /\ (forall buf, rawBodySaver buf = None <-> buf = []).
Proof.
  intros Ht P Hs Hts Hh Hr. split.
  - unfold run. rewrite (Signed_configured w req [] Ht P).
    unfold Signed.signatureValidation; step.
    rewrite Hs, Hts, Hh, startsWith_sha256, Hr. reflexivity.
  - intros [|x buf]; split; try reflexivity; discriminate.
Qed.

(** A request with no body, signed with the tag of the empty message. *)
Lemma empty_body_is_400_witness :
  run (Signed.webhook Sample.world
         {| projectName := lit "demo"; x_github_event := Some "push"%string;
            x_hub_signature_256 :=
              Some ("sha256=" ++ Hex.encode (expected (lit "s3cret") []))%string;
            rawBody := rawBodySaver []; body := VObj [] |})
  = (Ok missing_raw_body, []).
Proof.
  refine (proj1 (empty_body_is_400 Sample.world _ (VStr (lit "s3cret"))
                   (Hex.encode (expected (lit "s3cret") [])) _ _ _ _ _ _)).
  - reflexivity.
  - reflexivity.
  - reflexivity.
  - reflexivity.
  - reflexivity.
  - reflexivity.
Defined.

(** X8.  A secret that is truthy but not a string (a number, [true], an array
    or an object in [config.json]) makes [crypto.createHmac] throw once the
    header and the raw body are there: the handler throws a [TypeError],
    writes no response and posts nothing. *)
Theorem non_string_secret_throws (w : World) (req : Request) (secret : value)
        (sig : string) (raw : Buffer) :
  JS.truthy (configured w req) = true ->
  header_is (x_github_event req) "ping" = false ->
  JS.get (configured w req) (lit "webhookSecret") = Ok secret ->
  JS.truthy secret = true -> (forall s, secret <> VStr s) ->
  x_hub_signature_256 req = Some ("sha256=" ++ sig)%string ->
  rawBody req = Some raw ->
  run (Signed.webhook w req) = (Throw TypeError, []).
Proof.
  intros Ht P Hs Hts Hn Hh Hr. unfold run. rewrite (Signed_configured w req [] Ht P).
  unfold Signed.signatureValidation; step.
  rewrite Hs, Hts, Hh, startsWith_sha256, Hr; cbn [negb].
  destruct secret; try reflexivity. now destruct (Hn s).
Qed.

Lemma non_string_secret_throws_witness :
  run (Signed.webhook
         {| projectConfigs := [(lit "demo", VObj [(lit "webhookSecret", VNum 1234)])];
            env_TELEGRAM_API_DOMAIN := None;
            telegram := fun _ => None |}
         (Sample.request "demo" (Some "push") (Some ("sha256=" ++ Sample.tag)) (VObj [])))%string
  = (Throw TypeError, []).
Proof.
  refine (non_string_secret_throws _ _ (VNum 1234) Sample.tag (ascii_bytes "{}")
            _ _ _ _ _ _ _).
  - reflexivity.
  - reflexivity.
  - reflexivity.
  - reflexivity.
  - intros s; discriminate.
  - reflexivity.
  - reflexivity.
Defined.

(** ** What [src/main.ts] does not look at *)

(** X9.  [src/main.ts] reads nothing of a request but the project name and
    the parsed body: two requests that agree on these get the same answer and
    cause the same post, whatever their event and signature headers and raw
    bodies are.  In particular it relays a push that carries no signature. *)
Theorem plain_ignores_headers (w : World) (req req' : Request) :
  projectName req = projectName req' -> body req = body req' ->
  run (Plain.webhook w req) = run (Plain.webhook w req').
Proof.
  intros Hn Hb. unfold run, Plain.webhook, Push.relay.
  now rewrite Hn, Hb.
Qed.

Lemma plain_ignores_headers_witness :
  run (Plain.webhook Sample.world
         (Sample.request "demo" (Some "push") (Some (Sample.sign "s3cret" Sample.push))
                         Sample.push))%string
  = run (Plain.webhook Sample.world
           {| projectName := lit "demo"; x_github_event := Some "ping"%string;
              x_hub_signature_256 := Some "sha256=00"%string;
              rawBody := None; body := Sample.push |}).
Proof.
  apply plain_ignores_headers; reflexivity.
Defined.

(** ** Payloads that pass the validation and do not format *)

(** X10.  The payload validation lets through a [commits] that is truthy
    and not an array (an object, a string, a number, [true]); [commits.map]
    is then not a function: the handler throws a [TypeError], writes no
    response and posts nothing.  On the signed server this happens after the
    signature was accepted. *)
Theorem non_array_commits_throw (w : World) (req : Request) (p r c : value) :
  JS.truthy (configured w req) = true ->
  JS.get (body req) (lit "pusher") = Ok p -> JS.truthy p = true ->
  JS.get (body req) (lit "repository") = Ok r -> JS.truthy r = true ->
  JS.get (body req) (lit "commits") = Ok c -> JS.truthy c = true ->
  (forall items, c <> VArr items) ->
  run (Plain.webhook w req) = (Throw TypeError, [])
  /\ (header_is (x_github_event req) "ping" = false ->
      accepted (configured w req) req ->
      fst (run (Signed.webhook w req)) = Throw TypeError
      /\ posts (snd (run (Signed.webhook w req))) = []).
Proof.
  intros Ht Hp Tp Hr Tr Hc Tc Hn.
  assert (R : forall f log, Push.relay f w (configured w req) req log = (Throw TypeError, log)).
  { intros f log. unfold Push.relay; step. rewrite Hp, Hr, Hc, Tp, Tr, Tc; cbn [negb orb].
    unfold Push.message, Push.commitMessages, rbind.
    destruct c; try reflexivity. now destruct (Hn items). }
  split.
  - unfold run. now rewrite (Plain_configured w req [] Ht).
  - intros P A. destruct (Signed_accepted_configured w req Ht P A) as (a & b & ->).
    rewrite R. split; reflexivity.
Qed.

Lemma non_array_commits_throw_witness :
  run (Plain.webhook Sample.world
         (Sample.request "demo" (Some "push") None
            (Sample.obj [("pusher", Sample.str "bob"); ("repository", Sample.str "repo");
                         ("commits", Sample.str "none")])))%string
  = (Throw TypeError, []).
Proof.
  refine (proj1 (non_array_commits_throw Sample.world _
                   (Sample.str "bob") (Sample.str "repo") (Sample.str "none")
                   _ _ _ _ _ _ _ _)).
  - reflexivity.
  - reflexivity.
  - reflexivity.
  - reflexivity.
  - reflexivity.
  - reflexivity.
  - reflexivity.
  - intros items; discriminate.
Defined.

Lemma mapM_throws (f : value -> result jsstring) (items : list value) (c : value) :
  In c items -> (exists e, f c = Throw e) -> exists e, JS.mapM f items = Throw e.
Proof.
  intros Hin (e & He). induction items as [|x items IH]; [destruct Hin|].
  cbn [JS.mapM]. unfold rbind. destruct (f x) as [s|e'] eqn:Hx; [|eauto].
  destruct Hin as [->|Hin]; [congruence|].
  destruct (IH Hin) as (e' & ->). eauto.
Qed.

Lemma count_object_total (props : list (jsstring * value)) (k : jsstring) :
  exists n, Push.count (VObj props) k = Ok n.
Proof.
  unfold Push.count, rbind, JS.get_opt.
  destruct (get_object_total props k) as [x ->].
  destruct (JS.nullish x) eqn:Hx; [eauto|].
  destruct (get_total x (lit "length") Hx) as [len ->]. eauto.
Qed.

(** The callback throws on [null] and on a commit without [id]. *)
Lemma commitLine_throws (c : value) :
  c = VNull \/ (exists props, c = VObj props /\ JS.own (lit "id") props = None) ->
  exists e, Push.commitLine c = Throw e.
Proof.
  intros [->|(props & -> & Hid)]; [eexists; reflexivity|].
  unfold Push.commitLine.
  destruct (count_object_total props (lit "added")) as [a ->].
  destruct (count_object_total props (lit "modified")) as [m ->].
  destruct (count_object_total props (lit "removed")) as [r ->].
  cbn [rbind].
  destruct (get_object_total props (lit "message")) as [msg ->]. cbn [rbind].
  destruct (JS.toString msg) as [msg_s|e]; [|eexists; reflexivity]. cbn [rbind].
  cbn [JS.get]. rewrite Hid. eexists; reflexivity.
Qed.

(** X11.  The payload validation does not look inside [commits]: when one
    of the commits is [null] or has no [id], formatting throws; the handler
    writes no response and posts nothing, also for the commits that are well
    formed. *)
Theorem broken_commit_throws (w : World) (req : Request) (p r c : value)
        (items : list value) :
  JS.truthy (configured w req) = true ->
  JS.get (body req) (lit "pusher") = Ok p -> JS.truthy p = true ->
  JS.get (body req) (lit "repository") = Ok r -> JS.truthy r = true ->
  JS.get (body req) (lit "commits") = Ok (VArr items) ->
  In c items ->
  c = VNull \/ (exists props, c = VObj props /\ JS.own (lit "id") props = None) ->
  (exists e, run (Plain.webhook w req) = (Throw e, []))
  /\ (header_is (x_github_event req) "ping" = false ->
      accepted (configured w req) req ->
      (exists e, fst (run (Signed.webhook w req)) = Throw e)
      /\ posts (snd (run (Signed.webhook w req))) = []).
Proof.
  intros Ht Hp Tp Hr Tr Hc Hin Hbad.
  destruct (mapM_throws Push.commitLine items c Hin (commitLine_throws c Hbad)) as [e He].
  assert (R : forall f log, Push.relay f w (configured w req) req log = (Throw e, log)).
  { intros f log. unfold Push.relay; step. rewrite Hp, Hr, Hc, Tp, Tr; cbn [negb orb JS.truthy].
    unfold Push.message, Push.commitMessages, rbind; cbn [JS.array_map].
    now rewrite He. }
  split.
  - exists e. unfold run. now rewrite (Plain_configured w req [] Ht).
  - intros P A. destruct (Signed_accepted_configured w req Ht P A) as (a & b & ->).
    rewrite R. split; [eexists|]; reflexivity.
Qed.

(** A push whose second commit has no [id]. *)
Lemma broken_commit_throws_witness :
  exists e,
    run (Plain.webhook Sample.world
           (Sample.request "demo" (Some "push") None
              (Sample.obj [("pusher", Sample.obj [("name", Sample.str "bob")]);
                           ("repository", Sample.obj [("name", Sample.str "repo")]);
                           ("commits",
                            VArr [Model.commit_value Sample.fix_bug;
                                  Sample.obj [("message", Sample.str "wip")]])])))%string
    = (Throw e, []).
Proof.
  refine (proj1 (broken_commit_throws Sample.world _
                   (Sample.obj [("name", Sample.str "bob")])
                   (Sample.obj [("name", Sample.str "repo")])
                   (Sample.obj [("message", Sample.str "wip")])
                   [Model.commit_value Sample.fix_bug;
                    Sample.obj [("message", Sample.str "wip")]]
                   _ _ _ _ _ _ _ _))%string.
  - reflexivity.
  - reflexivity.
  - reflexivity.
  - reflexivity.
  - reflexivity.
  - reflexivity.
  - right; left; reflexivity.
  - right. eexists. split; reflexivity.
Defined.

(** ** A push of the data model, end to end *)

Lemma message_typed (f : Flavour) (e : Model.PushEvent) :
  Push.message f
    (VObj [(lit "name", VStr (Model.pusher_name e))])
    (VObj [(lit "name", VStr (Model.repository_name e));
           (lit "html_url", VStr (Model.repository_html_url e))])
    (VArr (map Model.commit_value (Model.commits e)))
  = Ok (header_line f (Model.pusher_name e) (Model.repository_name e)
          (Model.repository_html_url e)
        ++ separator f ++ JS.join [10%N] (map Model.line (Model.commits e))).
Proof.
  unfold Push.message, Push.commitMessages, rbind; cbn [JS.array_map].
  rewrite mapM_commits.
  change (JS.get (VObj [(lit "name", VStr (Model.pusher_name e))]) (lit "name"))
    with (Ok (VStr (Model.pusher_name e))).
  change (JS.get (VObj [(lit "name", VStr (Model.repository_name e));
                        (lit "html_url", VStr (Model.repository_html_url e))]) (lit "name"))
    with (Ok (VStr (Model.repository_name e))).
  change (JS.get (VObj [(lit "name", VStr (Model.repository_name e));
                        (lit "html_url", VStr (Model.repository_html_url e))])
            (lit "html_url"))
    with (Ok (VStr (Model.repository_html_url e))).
  cbn [JS.toString]. unfold header_line. now rewrite <- !app_assoc.
Qed.

Lemma config_fields (c : Model.ProjectConfig) :
  JS.get (Model.config_value c) (lit "botToken") = Ok (VStr (Model.botToken c))
  /\ JS.get (Model.config_value c) (lit "chatId") = Ok (Model.chat_value (Model.chatId c))
  /\ JS.get (Model.config_value c) (lit "threadId")
     = Ok match Model.threadId c with Some n => VNum n | None => VUndefined end.
Proof. destruct c as [tok chat [t|] [s|]]; repeat split; reflexivity. Qed.

Lemma relay_typed (f : Flavour) (w : World) (c : Model.ProjectConfig)
      (e : Model.PushEvent) (req : Request) (log : list event) :
  body req = Model.event_value e ->
  Push.relay f w (Model.config_value c) req log
  = (Ok (delivered w (notification f w c e)), log ++ [AxiosPost (notification f w c e)]).
Proof.
  intros Hb. unfold Push.relay; step. rewrite Hb.
  change (JS.get (Model.event_value e) (lit "pusher"))
    with (Ok (VObj [(lit "name", VStr (Model.pusher_name e))])).
  change (JS.get (Model.event_value e) (lit "repository"))
    with (Ok (VObj [(lit "name", VStr (Model.repository_name e));
                    (lit "html_url", VStr (Model.repository_html_url e))])).
  change (JS.get (Model.event_value e) (lit "commits"))
    with (Ok (VArr (map Model.commit_value (Model.commits e)))).
  cbn [JS.truthy negb orb]. rewrite message_typed.
  destruct (config_fields c) as (Htok & Hchat & Hthread).
  unfold Push.send, try_catch, axios_post, emit; step.
  rewrite Htok, Hchat, Hthread; cbn [JS.toString].
  fold (notification f w c e). unfold delivered.
  destruct (telegram w (notification f w c e)); reflexivity.
Qed.

(** X12.  For a project configured as the data model says and a push event of
    the data model, [src/main.ts] makes exactly one post: to
    [<domain>/bot<botToken>/sendMessage], with the chat id and the thread id
    of the project ([undefined] when it has none), link previews disabled, and
    as text the header line, the separator and the lines of the commits in
    the order of the push, joined by line feeds; it answers with the outcome
    of that post.  The signed server does the same for a request that is not
    a ping and whose signature was accepted. *)
Theorem typed_push_is_delivered (w : World) (req : Request)
        (c : Model.ProjectConfig) (e : Model.PushEvent) :
  JS.own (projectName req) (projectConfigs w) = Some (Model.config_value c) ->
  body req = Model.event_value e ->
  run (Plain.webhook w req)
  = (Ok (delivered w (notification Plain.flavour w c e)),
     [AxiosPost (notification Plain.flavour w c e)])
  /\ (header_is (x_github_event req) "ping" = false ->
      accepted (Model.config_value c) req ->
      fst (run (Signed.webhook w req)) = Ok (delivered w (notification Signed.flavour w c e))
      /\ posts (snd (run (Signed.webhook w req))) = [notification Signed.flavour w c e]).
Proof.
  intros Hown Hb.
  assert (K : known w req (Model.config_value c)) by (split; [assumption | reflexivity]).
  split.
  - unfold run. rewrite (Plain_known w req _ [] K). now apply relay_typed.
  - intros P A. destruct (Signed_accepted w req _ K P A) as (a & b & ->).
    rewrite (relay_typed Signed.flavour w c e req _ Hb). split; reflexivity.
Qed.

Lemma typed_push_is_delivered_witness :
  fst (run (Signed.webhook Sample.world Demo.signed_push))
  = Ok (delivered Sample.world (notification Signed.flavour Sample.world Sample.demo Demo.event))
  /\ posts (snd (run (Signed.webhook Sample.world Demo.signed_push)))
     = [notification Signed.flavour Sample.world Sample.demo Demo.event].
Proof.
  refine (proj2 (typed_push_is_delivered Sample.world Demo.signed_push
                   Sample.demo Demo.event _ _) _ _).
  - reflexivity.
  - reflexivity.
  - reflexivity.
  - vm_compute; reflexivity.
Defined.

(** ** Which header values the validation accepts *)

Lemma string_pairs (P : string -> Prop) :
  P EmptyString ->
  (forall a, P (String a EmptyString)) ->
  (forall a b s, P s -> P (String a (String b s))) ->
  forall s, P s.
Proof.
  intros H0 H1 H2 s.
  assert (H : P s /\ forall a, P (String a s)); [|exact (proj1 H)].
  induction s as [|c s [IH IH']]; split; auto.
Qed.

Lemma unhex_digit (c : ascii) (n : N) :
  Hex.unhex c = Some n -> (n < 16)%N /\ Hex.digit n = lower c.
Proof.
  destruct c as [[] [] [] [] [] [] [] []]; vm_compute; intros H;
    try discriminate; injection H as <-; split; reflexivity.
Qed.

Lemma unhex_lower (c : ascii) : Hex.unhex (lower c) = Hex.unhex c.
Proof. destruct c as [[] [] [] [] [] [] [] []]; reflexivity. Qed.

Lemma N_of_byte_of_ascii (a : ascii) : N_of_byte (byte_of_ascii a) = N_of_ascii a.
Proof. destruct a as [[] [] [] [] [] [] [] []]; reflexivity. Qed.

Lemma byte_of_N_small (n : N) : (n < 256)%N -> N_of_byte (byte_of_N n) = n.
Proof.
  intros H. unfold byte_of_N. rewrite N_of_byte_of_ascii. now apply N_ascii_embedding.
Qed.

Lemma decode_pair (a b : ascii) (s : string) :
  Hex.decode (String a (String b s))
  = match Hex.unhex a, Hex.unhex b with
    | Some hi, Some lo => byte_of_N (hi * 16 + lo) :: Hex.decode s
    | _, _ => []
    end.
Proof. reflexivity. Qed.

Lemma encode_cons (x : byte) (b : Buffer) :
  Hex.encode (x :: b)
  = String (Hex.digit (N_of_byte x / 16)) (String (Hex.digit (N_of_byte x mod 16)) (Hex.encode b)).
Proof. reflexivity. Qed.

(** Encoding what a text of hexadecimal digits decodes to gives the text in
    lower case. *)
Lemma hex_encode_decode (s : string) :
  all_hex s = true -> Nat.even (String.length s) = true ->
  Hex.encode (Hex.decode s) = lower_string s.
Proof.
  pattern s. apply string_pairs; clear s.
  - reflexivity.
  - intros a _ H; discriminate.
  - intros a b s IH Hall Hev. cbn [all_hex] in Hall.
    destruct (Hex.unhex a) as [hi|] eqn:Ha; [|discriminate].
    destruct (Hex.unhex b) as [lo|] eqn:Hb; [|discriminate].
    destruct (unhex_digit a hi Ha) as [Hhi Da].
    destruct (unhex_digit b lo Hb) as [Hlo Db].
    rewrite decode_pair, Ha, Hb, encode_cons.
    rewrite byte_of_N_small by lia.
    replace ((hi * 16 + lo) / 16)%N with hi
      by (apply (N.div_unique _ 16 hi lo); lia).
    replace ((hi * 16 + lo) mod 16)%N with lo
      by (apply (N.mod_unique _ 16 hi lo); lia).
    rewrite Da, Db. cbn [lower_string]. do 2 f_equal. now apply IH.
Qed.

(** Decoding does not look at the case of the digits. *)
Lemma hex_decode_lower (s : string) : Hex.decode (lower_string s) = Hex.decode s.
Proof.
  pattern s. apply string_pairs; clear s.
  - reflexivity.
  - reflexivity.
  - intros a b s IH. cbn [lower_string]. rewrite !decode_pair, !unhex_lower, IH.
    reflexivity.
Qed.

Lemma hex_decode_app (b : Buffer) (t : string) :
  Hex.decode (Hex.encode b ++ t) = b ++ Hex.decode t.
Proof.
  induction b as [|x b IH]; [reflexivity|].
  rewrite encode_cons. cbn [String.append]. rewrite hex_pair, IH. reflexivity.
Qed.

(** X13.  For a header [sha256=<sig>] in which [sig] is an even number of
    hexadecimal digits, the validation accepts the request exactly when
    [sig], put in lower case, is the hexadecimal digest that
    [hmac.digest('hex')] returns for the raw body: the comparison ignores
    the case of the digits and nothing else. *)
Theorem hex_signature_up_to_case
        (config : value) (req : Request) (secret : jsstring) (sig : string) (raw : Buffer) :
  JS.get config (lit "webhookSecret") = Ok (VStr secret) ->
  JS.truthy (VStr secret) = true ->
  x_hub_signature_256 req = Some ("sha256=" ++ sig)%string ->
  rawBody req = Some raw ->
  all_hex sig = true -> Nat.even (String.length sig) = true ->
  (accepted config req <-> lower_string sig = Hex.encode (expected secret raw)).
Proof.
  intros Hs Ht Hh Hr Hall Hev.
  assert (Hc : JS.get config (lit "webhookSecret") = Ok (VStr secret) /\ secret <> []).
  { split; [assumption|]. intros ->; discriminate. }
  rewrite (accepted_iff_decoded config req secret sig raw Hc Hh Hr). split.
  - intros <-. symmetry. now apply hex_encode_decode.
  - intros E. rewrite <- hex_decode_lower, E. apply hex_decode_encode.
Qed.

Lemma hex_signature_up_to_case_witness :
  accepted (Model.config_value Sample.demo)
           (Sample.request "demo" (Some "push") (Some ("sha256=" ++ Sample.TAG)) (VObj []))%string
  <-> lower_string Sample.TAG = Hex.encode (expected (lit "s3cret") (ascii_bytes "{}")).
Proof.
  apply (hex_signature_up_to_case _ _ (lit "s3cret") Sample.TAG (ascii_bytes "{}")).
  - reflexivity.
  - reflexivity.
  - reflexivity.
  - reflexivity.
  - reflexivity.
  - reflexivity.
Defined.

(** X14.  [Buffer.from(sig, 'hex')] stops at the first pair of characters
    that is not two hexadecimal digits, so text after the digest is looked at
    only as far as it decodes: a header [sha256=<digest><t>] is accepted
    exactly when [t] decodes to no octet, which is the case when [t] is
    empty, a single character, or starts with a pair that is not two
    hexadecimal digits. *)
Theorem text_after_digest
        (config : value) (req : Request) (secret : jsstring) (t : string) (raw : Buffer) :
  JS.get config (lit "webhookSecret") = Ok (VStr secret) ->
  JS.truthy (VStr secret) = true ->
  x_hub_signature_256 req
  = Some ("sha256=" ++ (Hex.encode (expected secret raw) ++ t))%string ->
  rawBody req = Some raw ->
  (accepted config req <-> Hex.decode t = []).
Proof.
  intros Hs Ht Hh Hr.
  assert (Hc : JS.get config (lit "webhookSecret") = Ok (VStr secret) /\ secret <> []).
  { split; [assumption|]. intros ->; discriminate. }
  rewrite (accepted_iff_decoded config req secret _ raw Hc Hh Hr), hex_decode_app.
  split.
  - intros E. apply (app_inv_head (expected secret raw)). now rewrite app_nil_r.
  - intros ->. apply app_nil_r.
Qed.

(** The digest followed by [", and more"]. *)
Lemma text_after_digest_witness :
  accepted (Model.config_value Sample.demo)
           (Sample.request "demo" (Some "push")
              (Some ("sha256=" ++ (Hex.encode (expected (lit "s3cret") (ascii_bytes "{}"))
                                   ++ ", and more")))
              (VObj []))%string.
Proof.
  refine (proj2 (text_after_digest (Model.config_value Sample.demo) _ (lit "s3cret")
                   ", and more"%string (ascii_bytes "{}") _ _ _ _) _).
  - reflexivity.
  - reflexivity.
  - reflexivity.
  - vm_compute; reflexivity.
  - reflexivity.
Defined.

(** ** Starting without a usable [config.json] *)

(** X15.  [loadProjectConfigs] does not fail: when [config.json] does not
    exist, cannot be read or is not JSON, it returns the empty object and
    writes one line to the console.  The process then serves no project:
    every request for a name that [Object.prototype] does not define is
    answered 404 by either server, and nothing is posted. *)
Theorem loader_falls_back
        (JSON_parse : jsstring -> string + value) (d : Config.Disk)
        (domain : option jsstring) (net : AxiosRequest -> option string) :
  Config.existsSync d = false
  \/ (Config.existsSync d = true
      /\ ((exists code, Config.readFileSync d = inl code)
          \/ exists raw message,
               Config.readFileSync d = inr raw /\ JSON_parse raw = inl message)) ->
  fst (Config.loadProjectConfigs JSON_parse d) = VObj []
  /\ length (snd (Config.loadProjectConfigs JSON_parse d)) = 1
  /\ exists w,
       Config.start JSON_parse d domain net = Some w
       /\ projectConfigs w = []
       /\ forall req,
            existsb (jsstring_eqb (projectName req)) JS.object_prototype_names = false ->
            run (Plain.webhook w req) = (Ok not_found, [])
            /\ run (Signed.webhook w req) = (Ok not_found, []).
Proof.
  intros H.
  assert (L : fst (Config.loadProjectConfigs JSON_parse d) = VObj []
              /\ length (snd (Config.loadProjectConfigs JSON_parse d)) = 1).
  { unfold Config.loadProjectConfigs, Config.attempt.
    destruct H as [->|(-> & [(code & ->)|(raw & message & -> & ->)])];
      split; reflexivity. }
  destruct L as [L1 L2]. split; [exact L1|]. split; [exact L2|].
  unfold Config.start. rewrite L1. eexists. split; [reflexivity|].
  split; [reflexivity|].
  intros req Hreq. now apply unknown_project_404.
Qed.

(** No file, and a file that is cut short. *)
Lemma loader_falls_back_witness :
  Config.loadProjectConfigs Demo.parse Demo.no_file
  = (VObj [], [Config.Warn "config.json not found, using empty project configs."])
  /\ fst (Config.loadProjectConfigs Demo.parse Demo.cut_short) = VObj [].
Proof.
  split.
  - reflexivity.
  - refine (proj1 (loader_falls_back Demo.parse Demo.cut_short None (fun _ => None) _)).
    right. split; [reflexivity|]. right. do 2 eexists. split; reflexivity.
Defined.

(** ** What the signed server does not look at *)

Lemma validation_reads_headers (config : value) (req req' : Request) (log : list event) :
  x_hub_signature_256 req = x_hub_signature_256 req' ->
  rawBody req = rawBody req' ->
  Signed.signatureValidation config req log = Signed.signatureValidation config req' log.
Proof. intros Hh Hr. unfold Signed.signatureValidation. now rewrite Hh, Hr. Qed.

(** X16.  The signed server does not read the parsed body of a request whose
    signature it has not accepted: the answer and the log depend on the
    project name, the two headers and the raw body only. *)
Theorem unauthenticated_body_is_not_read (w : World) (req req' : Request) :
  projectName req = projectName req' ->
  x_github_event req = x_github_event req' ->
  x_hub_signature_256 req = x_hub_signature_256 req' ->
  rawBody req = rawBody req' ->
  ~ accepted (configured w req) req ->
  run (Signed.webhook w req) = run (Signed.webhook w req').
Proof.
  intros Hn He Hh Hr Hna. unfold accepted, run in Hna.
  unfold run, Signed.webhook; step.
  rewrite <- Hn, <- He, get_configured.
  destruct (JS.truthy (configured w req)); cbn [negb]; [|reflexivity].
  destruct (header_is (x_github_event req) "ping"); [reflexivity|].
  rewrite <- (validation_reads_headers (configured w req) req req' [] Hh Hr).
  destruct (Signed.signatureValidation (configured w req) req []) as [[[r|]|e] log'];
    try reflexivity.
  now destruct Hna.
Qed.

(** Two payloads under one wrong signature. *)
Lemma unauthenticated_body_is_not_read_witness :
  run (Signed.webhook Sample.world
         {| projectName := lit "demo"; x_github_event := Some "push"%string;
            x_hub_signature_256 := Some ("sha256=" ++ Sample.tag)%string;
            rawBody := Some (Sample.wire Sample.push); body := Sample.push |})
  = run (Signed.webhook Sample.world
           {| projectName := lit "demo"; x_github_event := Some "push"%string;
              x_hub_signature_256 := Some ("sha256=" ++ Sample.tag)%string;
              rawBody := Some (Sample.wire Sample.push); body := Sample.no_commits |}).
Proof.
  apply unauthenticated_body_is_not_read.
  - reflexivity.
  - reflexivity.
  - reflexivity.
  - reflexivity.
  - vm_compute; discriminate.
Defined.

(** ** The status codes *)

(** X17.  [src/main.ts] answers only with 200, 400, 404 or 500, the signed
    server only with 200, 400, 401, 404 or 500; and whenever the answer is
    not 200 "OK" or 500 "Failed to send Telegram message", nothing was
    posted. *)
Theorem status_codes (w : World) (req : Request) (r : Response) :
  (fst (run (Plain.webhook w req)) = Ok r ->
   In (status r) [200; 400; 404; 500]%N
   /\ (payload r <> Send "OK" ->
       (forall e, payload r <> Json "Failed to send Telegram message" (Some e)) ->
       posts (snd (run (Plain.webhook w req))) = []))
  /\ (fst (run (Signed.webhook w req)) = Ok r ->
      In (status r) [200; 400; 401; 404; 500]%N
      /\ (payload r <> Send "OK" ->
          (forall e, payload r <> Json "Failed to send Telegram message" (Some e)) ->
          posts (snd (run (Signed.webhook w req))) = [])).
Proof.
  assert (D : forall x, In (status (delivered w x)) [200; 400; 404; 500]%N
                        /\ In (status (delivered w x)) [200; 400; 401; 404; 500]%N
                        /\ (payload (delivered w x) <> Send "OK" ->
                            (forall e, payload (delivered w x)
                                       <> Json "Failed to send Telegram message" (Some e)) ->
                            False)).
  { intros x. unfold delivered. destruct (telegram w x) as [d|]; cbn.
    - repeat split; auto 6; try (intros _ H; now apply (H (AxiosError d))).
    - repeat split; auto 6; try (intros H _; now apply H). }
  assert (R : forall f config log out,
             relayed f w config req log out -> fst out = Ok r ->
             In (status r) [200; 400; 404; 500]%N
             /\ In (status r) [200; 400; 401; 404; 500]%N
             /\ (payload r <> Send "OK" ->
                 (forall e, payload r <> Json "Failed to send Telegram message" (Some e)) ->
                 posts (snd out) = posts log)).
  { intros f config log out [[e ->]|[->|[[e ->]|(x & -> & _)]]]; cbn [fst snd]; intros E;
      try discriminate; injection E as <-.
    - cbn. repeat split; auto 6.
    - cbn. repeat split; auto 6.
    - destruct (D x) as (D1 & D2 & D3). repeat split; auto. intros H1 H2.
      now destruct (D3 H1 H2). }
  split.
  - destruct (Plain_cases w req) as [[_ ->]|[_ H]]; cbn [fst snd].
    + intros E; injection E as <-. cbn. split; auto.
    + intros E. destruct (R _ _ _ _ H E) as (R1 & _ & R3). split; auto.
  - destruct (Signed_cases w req)
      as [[_ ->]|[(_ & _ & ->)|[(_ & _ & Hp & Hres)|(_ & _ & _ & a & b & H)]]];
      cbn [fst snd].
    + intros E; injection E as <-. cbn. split; auto 6.
    + intros E; injection E as <-. cbn. split; auto 6.
    + intros E. split; [|auto].
      destruct Hres as [[e He]|(x & Hx & Hr)]; [congruence|].
      rewrite Hx in E; injection E as <-.
      destruct Hr as [-> | [-> | [-> | ->]]]; cbn; auto 6.
    + intros E. destruct (R _ _ _ _ H E) as (_ & R2 & R3). split; auto.
Qed.

Lemma status_codes_witness :
  In (status invalid_signature) [200; 400; 401; 404; 500]%N.
Proof.
  refine (proj1 (proj2 (status_codes Sample.world
                          (Sample.request "demo" (Some "push") (Some "sha256=00") Sample.push)
                          invalid_signature) _))%string.
  vm_compute; reflexivity.
Defined.
